(** * Slice router reconciliation of the kubeslice worker operator

    A shallow embedding of the [slice] package's router code
    (labels, container, volume, Deployment and Service assembly,
    dataplane detection, [ReconcileSliceRouter], [cleanupSliceRouter])
    together with the properties stated about it.

    Conventions.
    - A Go [string] is a [string] (a list of bytes); [a + b] is [a +:+ b].
    - A Go [map[string]string] is a [gmap string string].
    - A Go pointer that the code tests against [nil] is an [option].
    - A run-time panic (index out of range, nil dereference) is [None].
    - A Go [error] result is an [option error]; [None] is [nil]. *)

From Stdlib Require Import ZArith String Ascii List DecimalString.
From Stdlib Require Import DecimalPos DecimalZ.
From stdpp Require Import base option gmap strings list.

Local Open Scope string_scope.
Local Open Scope Z_scope.

(** ** The Go library functions the package calls *)

Module strings.

(** [strings.Split(s, sep)] for a one-byte separator, the only form the
    package uses: the pieces of [s] between the occurrences of [sep];
    a string without [sep] (also the empty one) gives one piece. *)
Fixpoint Split (s : string) (sep : ascii) : list string :=
  match s with
  | EmptyString => [EmptyString]
  | String c s' =>
      if Ascii.eqb c sep then EmptyString :: Split s' sep
      else match Split s' sep with
           | piece :: pieces => String c piece :: pieces
           | [] => [String c EmptyString]
           end
  end.

(** [strings.Join(elems, sep)]. *)
Fixpoint Join (elems : list string) (sep : string) : string :=
  match elems with
  | [] => ""
  | [e] => e
  | e :: rest => e +:+ sep +:+ Join rest sep
  end.

(** Number of occurrences of the byte [sep] in [s]. *)
Fixpoint CountByte (s : string) (sep : ascii) : nat :=
  match s with
  | EmptyString => 0%nat
  | String c s' =>
      if Ascii.eqb c sep then S (CountByte s' sep) else CountByte s' sep
  end.

End strings.

Module strconv.

(** [strconv.Itoa]: the decimal form of an integer, with a leading [-]
    when negative. *)
Definition Itoa (i : Z) : string := NilZero.string_of_int (Z.to_int i).

End strconv.

(** [l[i] = x] on a Go slice: an index past the end panics. *)
Definition setIndex {A} (l : list A) (i : nat) (x : A) : option (list A) :=
  if decide (i < length l)%nat then Some (<[i:=x]> l) else None.

(** ** Errors *)

(** The reasons of an API status error that matter here, and the errors a
    call can return: a status error of the cluster API, or one made with
    [fmt.Errorf]. *)
Inductive StatusReason :=
| StatusReasonNotFound
| StatusReasonAlreadyExists
| StatusReasonForbidden
| StatusReasonTimeout
| StatusReasonInternalError.

Inductive error :=
| StatusError (reason : StatusReason) (message : string)
| Errorf (message : string).

Module errors.
(** [errors.IsNotFound]. *)
Definition IsNotFound (err : error) : bool :=
  match err with
  | StatusError StatusReasonNotFound _ => true
  | _ => false
  end.
End errors.

(** ** Kubernetes objects, with the fields the package sets *)

Module OwnerReference.
Record t := mk {
  Kind : string;
  Name : string;
  UID : string;
  Controller : bool;
  BlockOwnerDeletion : bool
}.
End OwnerReference.

Module ObjectMeta.
Record t := mk {
  Name : string;
  Namespace : string;
  Labels : gmap string string;
  OwnerReferences : list OwnerReference.t
}.
Definition setOwnerReferences (m : t) (refs : list OwnerReference.t) : t :=
  mk (Name m) (Namespace m) (Labels m) refs.
End ObjectMeta.

Module NamespacedName.
Record t := mk { Name : string; Namespace : string }.
End NamespacedName.

Module EnvVar.
Record t := mk { Name : string; Value : string }.
End EnvVar.

Module VolumeMount.
Record t := mk { Name : string; MountPath : string; SubPath : string }.
End VolumeMount.

Module SecurityContext.
Record t := mk {
  Privileged : option bool;
  AllowPrivilegeEscalation : option bool;
  CapabilitiesAdd : list string
}.
End SecurityContext.

(** [resource.Quantity]: a value and the format it prints in. *)
Inductive QuantityFormat := DecimalExponent | BinarySI | DecimalSI.

Module Quantity.
Record t := mk { Value : Z; Format : QuantityFormat }.
End Quantity.

Module Container.
Record t := mk {
  Name : string;
  Image : string;
  ImagePullPolicy : string;
  Env : list EnvVar.t;
  Limits : gmap string Quantity.t;
  SecurityContext : option SecurityContext.t;
  VolumeMounts : list VolumeMount.t
}.
Definition setEnv (c : t) (env : list EnvVar.t) : t :=
  mk (Name c) (Image c) (ImagePullPolicy c) env (Limits c)
     (SecurityContext c) (VolumeMounts c).
Definition setVolumeMounts (c : t) (vms : list VolumeMount.t) : t :=
  mk (Name c) (Image c) (ImagePullPolicy c) (Env c) (Limits c)
     (SecurityContext c) vms.
End Container.

Inductive VolumeSource :=
| EmptyDir
| ConfigMap (localObjectName : string).

Module Volume.
Record t := mk { Name : string; Source : VolumeSource }.
End Volume.

Module NodeSelectorRequirement.
Record t := mk { Key : string; Operator : string; Values : list string }.
End NodeSelectorRequirement.

Module Toleration.
Record t := mk {
  Key : string; Operator : string; Effect : string; Value : string
}.
End Toleration.

Module PodSpec.
Record t := mk {
  ServiceAccountName : string;
  (** [Affinity.NodeAffinity.RequiredDuringSchedulingIgnoredDuringExecution.
      NodeSelectorTerms]: a list of terms, each a list of requirements. *)
  NodeSelectorTerms : list (list NodeSelectorRequirement.t);
  Containers : list Container.t;
  Volumes : list Volume.t;
  Tolerations : list Toleration.t;
  ImagePullSecrets : list string
}.
Definition setImagePullSecrets (p : t) (names : list string) : t :=
  mk (ServiceAccountName p) (NodeSelectorTerms p) (Containers p)
     (Volumes p) (Tolerations p) names.
End PodSpec.

Module Deployment.
Record t := mk {
  Meta : ObjectMeta.t;
  Replicas : option Z;
  MatchLabels : gmap string string;
  TemplateLabels : gmap string string;
  TemplateSpec : PodSpec.t
}.
Definition setMeta (d : t) (m : ObjectMeta.t) : t :=
  mk m (Replicas d) (MatchLabels d) (TemplateLabels d) (TemplateSpec d).
Definition setTemplateSpec (d : t) (p : PodSpec.t) : t :=
  mk (Meta d) (Replicas d) (MatchLabels d) (TemplateLabels d) p.
End Deployment.

Module ServicePort.
Record t := mk { Port : Z; Name : string }.
End ServicePort.

Module Service.
Record t := mk {
  Meta : ObjectMeta.t;
  Selector : gmap string string;
  Ports : list ServicePort.t
}.
Definition setMeta (s : t) (m : ObjectMeta.t) : t :=
  mk m (Selector s) (Ports s).
End Service.

Module NetworkService.
Record t := mk { Meta : ObjectMeta.t }.
End NetworkService.

Module Pod.
Record t := mk { Meta : ObjectMeta.t }.
End Pod.

(** ** The Slice resource, with the fields the package reads *)

Module SliceConfig.
Record t := mk {
  SliceSubnet : string;
  (** [SliceIpam.IpamClusterOctet], a Go [int]. *)
  IpamClusterOctet : Z
}.
End SliceConfig.

Module Slice.
Record t := mk {
  Name : string;
  Namespace : string;
  UID : string;
  (** [Status.SliceConfig], a pointer: [None] is [nil]. *)
  StatusSliceConfig : option SliceConfig.t;
  (** [Status.DNSIP]. *)
  StatusDNSIP : string
}.
End Slice.

(** ** Package constants and package-level variables *)

Definition nsmDataplaneVpp : string := "vpp".
Definition nsmDataplaneKernel : string := "kernel".
Definition nsmVppDataplaneCfgStr : string := "nsm-vpp-plane".
Definition nsmKernelDataplaneCfgStr : string := "nsm-kernel-plane".
Definition sliceRouterDeploymentNamePrefix : string := "vl3-slice-router-".

(** [corev1.PullAlways]. *)
Definition PullAlways : string := "Always".
(** [corev1.NodeSelectorOpIn]. *)
Definition NodeSelectorOpIn : string := "In".
(** [time.Second], in nanoseconds as [time.Duration] counts. *)
Definition Second : Z := 1000000000.

(** The variables read once at start-up: two of the [controllers] package,
    four from the process environment. *)
Record Globals := {
  ControlPlaneNamespace : string;
  ImagePullSecretName : string;
  sliceRouterSidecarImage : string;
  sliceRouterSidecarImagePullPolicy : string;
  vl3RouterImage : string;
  vl3RouterPullPolicy : string
}.

(** ** Object assembly *)

Definition labelsForSliceRouterDeployment (name : string) : gmap string string :=
  {[ "networkservicemesh.io/app" := "vl3-nse-" +:+ name;
     "networkservicemesh.io/impl" := "vl3-service-" +:+ name;
     "avesha.io/pod-type" := "router";
     "avesha.io/slice" := name ]}.

Definition getClusterPrefixPool (sliceSubnet ipamOctet : string) : option string :=
  let octetList := strings.Split sliceSubnet "."%char in
  octetList ← setIndex octetList 2 ipamOctet;
  octetList ← setIndex octetList 3 "0/24";
  Some (strings.Join octetList ".").

Section Assembly.

Variable g : Globals.

Definition getSliceRouterSidecarImageAndPullPolicy : string * string :=
  let pullPolicy := PullAlways in
  let pullPolicy :=
    if (0 <? String.length (sliceRouterSidecarImagePullPolicy g))%nat
    then sliceRouterSidecarImagePullPolicy g else pullPolicy in
  (sliceRouterSidecarImage g, pullPolicy).

(** The six variables every router container starts with. *)
Definition sliceRouterBaseEnv (s : Slice.t) (dataplane : string) : list EnvVar.t :=
  [ EnvVar.mk "DATAPLANE" dataplane;
    EnvVar.mk "ENDPOINT_NETWORK_SERVICE" ("vl3-service-" +:+ Slice.Name s);
    EnvVar.mk "ENDPOINT_LABELS" ("app=" +:+ "vl3-nse-" +:+ Slice.Name s);
    EnvVar.mk "TRACER_ENABLED" "true";
    EnvVar.mk "NSREGISTRY_ADDR" ("nsmgr." +:+ ControlPlaneNamespace g);
    EnvVar.mk "NSREGISTRY_PORT" "5000" ].

(** The variables appended in kernel mode. *)
Definition sliceRouterKernelEnv (clusterPrefixPool sliceSubnet dnsIP : string)
  : list EnvVar.t :=
  [ EnvVar.mk "IP_ADDRESS" clusterPrefixPool;
    EnvVar.mk "DST_ROUTES" sliceSubnet;
    EnvVar.mk "DNS_NAMESERVERS" dnsIP;
    EnvVar.mk "DNS_DOMAINS" "slice.local" ].

(** The variable and the mount appended in VPP mode. *)
Definition sliceRouterVppEnv (ipamOctet : string) : list EnvVar.t :=
  [ EnvVar.mk "NSE_IPAM_UNIQUE_OCTET" ipamOctet ].

Definition sliceRouterVppMount : VolumeMount.t :=
  VolumeMount.mk "universal-cnf-config-volume"
                 "/etc/universal-cnf/config.yaml" "config.yaml".

(** [s.Status.SliceConfig] is dereferenced without a test: a slice whose
    [SliceConfig] is [nil] panics, and so does a subnet that
    [getClusterPrefixPool] cannot index. *)
Definition getContainerSpecForSliceRouter
    (s : Slice.t) (ipamOctet dataplane : string) : option Container.t :=
  let vl3Image := "nexus.dev.aveshalabs.io/avesha/vl3_ucnf-nse:1.0.0" in
  let vl3ImagePullPolicy := PullAlways in
  let vl3Image :=
    if negb (String.length (vl3RouterImage g) =? 0)%nat
    then vl3RouterImage g else vl3Image in
  let vl3ImagePullPolicy :=
    if negb (String.length (vl3RouterPullPolicy g) =? 0)%nat
    then vl3RouterPullPolicy g else vl3ImagePullPolicy in
  sliceConfig ← Slice.StatusSliceConfig s;
  clusterPrefixPool ←
    getClusterPrefixPool (SliceConfig.SliceSubnet sliceConfig) ipamOctet;
  let privileged := true in
  let sliceRouterContainer :=
    {| Container.Image := vl3Image;
       Container.Name := "vl3-nse";
       Container.ImagePullPolicy := vl3ImagePullPolicy;
       Container.Env := sliceRouterBaseEnv s dataplane;
       Container.Limits :=
         {[ "networkservicemesh.io/socket" := Quantity.mk 1 DecimalExponent ]};
       Container.SecurityContext :=
         Some (SecurityContext.mk (Some privileged) None []);
       Container.VolumeMounts := [] |} in
  let sliceRouterContainer :=
    if String.eqb dataplane nsmDataplaneKernel
    then Container.setEnv sliceRouterContainer
           (Container.Env sliceRouterContainer ++
            sliceRouterKernelEnv clusterPrefixPool
              (SliceConfig.SliceSubnet sliceConfig) (Slice.StatusDNSIP s))
    else sliceRouterContainer in
  let sliceRouterContainer :=
    if String.eqb dataplane nsmDataplaneVpp
    then Container.setVolumeMounts
           (Container.setEnv sliceRouterContainer
              (Container.Env sliceRouterContainer ++
               sliceRouterVppEnv ipamOctet))
           (Container.VolumeMounts sliceRouterContainer ++
            [sliceRouterVppMount])
    else sliceRouterContainer in
  Some sliceRouterContainer.

Definition getContainerSpecForSliceRouterSidecar (dataplane : string)
  : Container.t :=
  let '(vl3SidecarImage, vl3SidecarImagePullPolicy) :=
    getSliceRouterSidecarImageAndPullPolicy in
  let privileged := true in
  {| Container.Name := "avesha-vl3-sidecar";
     Container.Image := vl3SidecarImage;
     Container.ImagePullPolicy := vl3SidecarImagePullPolicy;
     Container.Env :=
       [ EnvVar.mk "DATAPLANE" dataplane;
         EnvVar.mk "POD_TYPE" "SLICEROUTER_POD" ];
     Container.Limits := ∅;
     Container.SecurityContext :=
       Some (SecurityContext.mk (Some privileged) (Some privileged)
                                ["NET_ADMIN"]);
     Container.VolumeMounts := [ VolumeMount.mk "shared-volume" "/config" "" ] |}.

Definition getVolumeSpecForSliceRouter (s : Slice.t) (dataplane : string)
  : list Volume.t :=
  let sliceRouterVolumeSpec := [ Volume.mk "shared-volume" EmptyDir ] in
  if String.eqb dataplane nsmDataplaneVpp
  then sliceRouterVolumeSpec ++
       [ Volume.mk "universal-cnf-config-volume"
                   (ConfigMap ("ucnf-vl3-service-" +:+ Slice.Name s)) ]
  else sliceRouterVolumeSpec.

End Assembly.

(** ** The cluster client, the scheme and the event recorder *)

Inductive Kind := KindDeployment | KindService | KindNetworkService.

Inductive Object :=
| ObjDeployment (d : Deployment.t)
| ObjService (s : Service.t)
| ObjNetworkService (n : NetworkService.t).

(** What [SliceReconciler] embeds, over any cluster state [S]:
    the client ([Get] and [List] read the state; [Create] and [Delete]
    give an error or the next state) and the scheme, seen through
    [ctrl.SetControllerReference], which touches nothing of the
    controlled object but its owner references and may fail. *)
Module Client.
Record t (S : Type) := mk {
  Get : S -> Kind -> NamespacedName.t -> error + Object;
  List : S -> string -> gmap string string -> error + list Pod.t;
  Create : S -> Object -> error + S;
  Delete : S -> Object -> error + S;
  SetControllerReference :
    Slice.t -> ObjectMeta.t -> list OwnerReference.t * option error
}.
Arguments Get {S}.
Arguments List {S}.
Arguments Create {S}.
Arguments Delete {S}.
Arguments SetControllerReference {S}.
End Client.

(** A client call, as the reconciler issues it. *)
Inductive Call :=
| CallGet (kind : Kind) (key : NamespacedName.t)
| CallList (namespace : string) (matchingLabels : gmap string string)
| CallCreate (obj : Object)
| CallDelete (obj : Object).

Definition isWrite (c : Call) : bool :=
  match c with
  | CallCreate _ | CallDelete _ => true
  | CallGet _ _ | CallList _ _ => false
  end.

Definition isCreate (c : Call) : bool :=
  match c with CallCreate _ => true | _ => false end.

Definition isDelete (c : Call) : bool :=
  match c with CallDelete _ => true | _ => false end.

Inductive EventType := EventTypeNormal | EventTypeWarning.

Module Event.
Record t := mk {
  Object : Slice.t;
  Type_ : EventType;
  Reason : string;
  Message : string
}.
End Event.

(** [ctrl.Result]. *)
Module Result.
Record t := mk { Requeue : bool; RequeueAfter : Z }.
Definition empty : t := mk false 0.
End Result.

(** The world a reconcile pass runs in: the cluster state, the client
    calls issued so far (oldest first) and the events recorded so far. *)
Module World.
Record t (S : Type) := mk {
  cluster : S;
  calls : list Call;
  events : list Event.t
}.
Arguments mk {S}.
Arguments cluster {S}.
Arguments calls {S}.
Arguments events {S}.
Definition init {S} (c : S) : t S := mk c [] [].
End World.

(** A computation: from a world to a value and the next world, or a
    panic. *)
Definition M (S A : Type) : Type := World.t S -> option (A * World.t S).

#[global] Instance M_ret {S} : MRet (M S) := fun A a w => Some (a, w).
#[global] Instance M_bind {S} : MBind (M S) :=
  fun A B f m w => match m w with
                   | Some (a, w') => f a w'
                   | None => None
                   end.

(** A pure step that may panic. *)
Definition orPanic {S A} (o : option A) : M S A :=
  fun w => match o with Some a => Some (a, w) | None => None end.

Section Reconciler.

Context {S : Type}.
Variable r : Client.t S.
Variable g : Globals.

Definition logCall (c : Call) (w : World.t S) : World.t S :=
  World.mk (World.cluster w) (World.calls w ++ [c]) (World.events w).

Definition Get (kind : Kind) (key : NamespacedName.t) : M S (error + Object) :=
  fun w => Some (Client.Get r (World.cluster w) kind key,
                 logCall (CallGet kind key) w).

Definition List (namespace : string) (matchingLabels : gmap string string)
  : M S (error + list Pod.t) :=
  fun w => Some (Client.List r (World.cluster w) namespace matchingLabels,
                 logCall (CallList namespace matchingLabels) w).

Definition Create (obj : Object) : M S (option error) :=
  fun w =>
    match Client.Create r (World.cluster w) obj with
    | inl err => Some (Some err, logCall (CallCreate obj) w)
    | inr c =>
        Some (None, World.mk c (World.calls w ++ [CallCreate obj])
                             (World.events w))
    end.

Definition Delete (obj : Object) : M S (option error) :=
  fun w =>
    match Client.Delete r (World.cluster w) obj with
    | inl err => Some (Some err, logCall (CallDelete obj) w)
    | inr c =>
        Some (None, World.mk c (World.calls w ++ [CallDelete obj])
                             (World.events w))
    end.

Definition Record_ (e : Event.t) : M S unit :=
  fun w => Some (tt, World.mk (World.cluster w) (World.calls w)
                              (World.events w ++ [e])).

Definition getNsmDataplaneMode (slice : Slice.t) : M S (string * option error) :=
  res ← List (Slice.Namespace slice) {[ "app" := nsmVppDataplaneCfgStr ]};
  match res with
  | inl err => mret ("", Some err)
  | inr items =>
      if (0 <? length items)%nat then mret (nsmDataplaneVpp, None)
      else mret (nsmDataplaneKernel, None)
  end.

(** The error of [SetControllerReference] is dropped here. *)
Definition deploymentForSliceRouter
    (s : Slice.t) (ipamOctet dataplane : string) : option Deployment.t :=
  let replicas := 1 in
  let ls := labelsForSliceRouterDeployment (Slice.Name s) in
  router ← getContainerSpecForSliceRouter g s ipamOctet dataplane;
  let dep :=
    {| Deployment.Meta :=
         {| ObjectMeta.Name := sliceRouterDeploymentNamePrefix +:+ Slice.Name s;
            ObjectMeta.Namespace := Slice.Namespace s;
            ObjectMeta.Labels := ∅;
            ObjectMeta.OwnerReferences := [] |};
       Deployment.Replicas := Some replicas;
       Deployment.MatchLabels := ls;
       Deployment.TemplateLabels := ls;
       Deployment.TemplateSpec :=
         {| PodSpec.ServiceAccountName := "slice-router";
            PodSpec.NodeSelectorTerms :=
              [[ NodeSelectorRequirement.mk "avesha/node-type"
                   NodeSelectorOpIn ["gateway"] ]];
            PodSpec.Containers :=
              [ router; getContainerSpecForSliceRouterSidecar g dataplane ];
            PodSpec.Volumes := getVolumeSpecForSliceRouter s dataplane;
            PodSpec.Tolerations :=
              [ Toleration.mk "avesha/node-type" "Equal" "NoSchedule" "gateway";
                Toleration.mk "avesha/node-type" "Equal" "NoExecute" "gateway" ];
            PodSpec.ImagePullSecrets := [] |} |} in
  let dep :=
    if negb (String.length (ImagePullSecretName g) =? 0)%nat
    then Deployment.setTemplateSpec dep
           (PodSpec.setImagePullSecrets (Deployment.TemplateSpec dep)
              [ImagePullSecretName g])
    else dep in
  let '(refs, _) := Client.SetControllerReference r s (Deployment.Meta dep) in
  Some (Deployment.setMeta dep
          (ObjectMeta.setOwnerReferences (Deployment.Meta dep) refs)).

Definition deploySliceRouter (slice : Slice.t) : M S (option error) :=
  '(dataplane, err) ← getNsmDataplaneMode slice;
  match err with
  | Some err => mret (Some err)
  | None =>
      if negb (String.eqb dataplane nsmDataplaneKernel)
         && negb (String.eqb dataplane nsmDataplaneVpp)
      then mret (Some (Errorf ("invalid dataplane: " +:+ dataplane)))
      else
        sliceConfig ← orPanic (Slice.StatusSliceConfig slice);
        let ipamOctet := strconv.Itoa (SliceConfig.IpamClusterOctet sliceConfig) in
        dep ← orPanic (deploymentForSliceRouter slice ipamOctet dataplane);
        err ← Create (ObjDeployment dep);
        match err with
        | Some err =>
            _ ← Record_ (Event.mk slice EventTypeWarning "Error"
                           "Error creating slice router");
            mret (Some err)
        | None => mret None
        end
  end.

(** The Service literal of [deploySliceRouterSvc], before the owner
    reference is set. *)
Definition serviceForSliceRouter (slice : Slice.t) : Service.t :=
  let ls := labelsForSliceRouterDeployment (Slice.Name slice) in
  {| Service.Meta :=
       {| ObjectMeta.Name :=
            sliceRouterDeploymentNamePrefix +:+ Slice.Name slice;
          ObjectMeta.Namespace := ControlPlaneNamespace g;
          ObjectMeta.Labels := ∅;
          ObjectMeta.OwnerReferences := [] |};
     Service.Selector := ls;
     Service.Ports := [ ServicePort.mk 5000 "grpc" ] |}.

Definition deploySliceRouterSvc (slice : Slice.t) : M S (option error) :=
  let svc := serviceForSliceRouter slice in
  let '(refs, err) := Client.SetControllerReference r slice (Service.Meta svc) in
  let svc := Service.setMeta svc
               (ObjectMeta.setOwnerReferences (Service.Meta svc) refs) in
  match err with
  | Some err => mret (Some err)
  | None =>
      err ← Create (ObjService svc);
      match err with
      | Some err =>
          _ ← Record_ (Event.mk slice EventTypeWarning "Error"
                         "Error creating service for slice router");
          mret (Some err)
      | None => mret None
      end
  end.

Definition requeueAfter10s : Result.t := Result.mk false (10 * Second).

Definition ReconcileSliceRouter (slice : Slice.t)
  : M S (Result.t * option error * bool) :=
  found ← Get KindDeployment
            (NamespacedName.mk
               (sliceRouterDeploymentNamePrefix +:+ Slice.Name slice)
               (Slice.Namespace slice));
  match found with
  | inl err =>
      if errors.IsNotFound err then
        if match Slice.StatusSliceConfig slice with
           | None => true
           | Some sliceConfig =>
               String.eqb (SliceConfig.SliceSubnet sliceConfig) ""
           end
        then mret (requeueAfter10s, None, true)
        else
          err ← deploySliceRouter slice;
          match err with
          | Some err => mret (Result.empty, Some err, true)
          | None => mret (requeueAfter10s, None, true)
          end
      else mret (Result.empty, Some err, true)
  | inr _ =>
      found ← Get KindService
                (NamespacedName.mk
                   (sliceRouterDeploymentNamePrefix +:+ Slice.Name slice)
                   (ControlPlaneNamespace g));
      match found with
      | inl err =>
          if errors.IsNotFound err then
            if match Slice.StatusSliceConfig slice with
               | None => true
               | Some _ => false
               end
            then mret (requeueAfter10s, None, true)
            else
              err ← deploySliceRouterSvc slice;
              match err with
              | Some err => mret (Result.empty, Some err, true)
              | None => mret (requeueAfter10s, None, true)
              end
          else mret (Result.empty, Some err, true)
      | inr _ => mret (Result.empty, None, false)
      end
  end.

Definition cleanupSliceRouter (sliceName : string) : M S (option error) :=
  found ← Get KindNetworkService
            (NamespacedName.mk ("vl3-service-" +:+ sliceName)
                               (ControlPlaneNamespace g));
  match found with
  | inl err =>
      if errors.IsNotFound err then mret None else mret (Some err)
  | inr vl3Nse =>
      err ← Delete vl3Nse;
      match err with
      | Some err => mret (Some err)
      | None => mret None
      end
  end.

End Reconciler.

(** The controller reference to a slice: what a successful
    [SetControllerReference] leaves among the owner references. *)
Definition controllerRefOf (s : Slice.t) : OwnerReference.t :=
  OwnerReference.mk "Slice" (Slice.Name s) (Slice.UID s) true true.

(** The mode [getNsmDataplaneMode] answers for a list of VPP pods. *)
Definition dataplaneFor (items : list Pod.t) : string :=
  if (0 <? length items)%nat then nsmDataplaneVpp else nsmDataplaneKernel.

(** ** A client over an in-memory cluster

    A cluster that stores the objects it is given, in the manner of the
    fake client the controller tests use, with faults that can be
    injected per call. It gives the properties below concrete runs. *)

Module Fake.

Inductive Op := OpGet (kind : Kind) | OpList | OpCreate | OpDelete.

Definition kindCode (k : Kind) : nat :=
  match k with KindDeployment => 0 | KindService => 1 | KindNetworkService => 2 end.

Definition opCode (o : Op) : nat :=
  match o with
  | OpGet k => kindCode k
  | OpList => 3
  | OpCreate => 4
  | OpDelete => 5
  end.

Record Cluster := mkCluster {
  objects : list Object;
  pods : list Pod.t;
  faults : list (Op * error)
}.

Definition kindOf (o : Object) : Kind :=
  match o with
  | ObjDeployment _ => KindDeployment
  | ObjService _ => KindService
  | ObjNetworkService _ => KindNetworkService
  end.

Definition metaOf (o : Object) : ObjectMeta.t :=
  match o with
  | ObjDeployment d => Deployment.Meta d
  | ObjService s => Service.Meta s
  | ObjNetworkService n => NetworkService.Meta n
  end.

Definition hasKey (kind : Kind) (name namespace : string) (o : Object) : bool :=
  (kindCode (kindOf o) =? kindCode kind)%nat
  && String.eqb (ObjectMeta.Name (metaOf o)) name
  && String.eqb (ObjectMeta.Namespace (metaOf o)) namespace.

Definition fault (c : Cluster) (op : Op) : option error :=
  snd <$> find (fun f => (opCode (fst f) =? opCode op)%nat) (faults c).

Definition notFound (name : string) : error :=
  StatusError StatusReasonNotFound (name +:+ " not found").

Definition get (c : Cluster) (kind : Kind) (key : NamespacedName.t)
  : error + Object :=
  match fault c (OpGet kind) with
  | Some err => inl err
  | None =>
      match find (hasKey kind (NamespacedName.Name key)
                              (NamespacedName.Namespace key)) (objects c) with
      | Some o => inr o
      | None => inl (notFound (NamespacedName.Name key))
      end
  end.

Definition matches (selector labels : gmap string string) : bool :=
  forallb (fun kv => bool_decide (labels !! kv.1 = Some kv.2))
          (map_to_list selector).

Definition list_ (c : Cluster) (namespace : string)
    (matchingLabels : gmap string string) : error + list Pod.t :=
  match fault c OpList with
  | Some err => inl err
  | None =>
      inr (filter (fun p =>
                     String.eqb (ObjectMeta.Namespace (Pod.Meta p)) namespace
                     && matches matchingLabels (ObjectMeta.Labels (Pod.Meta p))
                     = true)
                  (pods c))
  end.

Definition create (c : Cluster) (o : Object) : error + Cluster :=
  match fault c OpCreate with
  | Some err => inl err
  | None =>
      let m := metaOf o in
      if existsb (hasKey (kindOf o) (ObjectMeta.Name m) (ObjectMeta.Namespace m))
                 (objects c)
      then inl (StatusError StatusReasonAlreadyExists
                  (ObjectMeta.Name m +:+ " already exists"))
      else inr (mkCluster (objects c ++ [o]) (pods c) (faults c))
  end.

Definition delete_ (c : Cluster) (o : Object) : error + Cluster :=
  match fault c OpDelete with
  | Some err => inl err
  | None =>
      let m := metaOf o in
      let same := hasKey (kindOf o) (ObjectMeta.Name m) (ObjectMeta.Namespace m) in
      if existsb same (objects c)
      then inr (mkCluster (filter (fun x => same x = false) (objects c))
                          (pods c) (faults c))
      else inl (notFound (ObjectMeta.Name m))
  end.

(** An owner in another namespace than the object is refused; otherwise
    the reference to the owner is added. *)
Definition setControllerReference (s : Slice.t) (m : ObjectMeta.t)
  : list OwnerReference.t * option error :=
  if String.eqb (Slice.Namespace s) (ObjectMeta.Namespace m)
  then ((ObjectMeta.OwnerReferences m ++ [controllerRefOf s])%list, None)
  else (ObjectMeta.OwnerReferences m,
        Some (Errorf "cross-namespace owner references are disallowed")).

Definition client : Client.t Cluster :=
  Client.mk Cluster get list_ create delete_ setControllerReference.

Definition empty : Cluster := mkCluster [] [] [].

Definition globals : Globals :=
  {| ControlPlaneNamespace := "kubeslice-system";
     ImagePullSecretName := "";
     sliceRouterSidecarImage := "";
     sliceRouterSidecarImagePullPolicy := "";
     vl3RouterImage := "";
     vl3RouterPullPolicy := "" |}.

(** A slice of namespace [namespace] with a subnet and one without. *)
Definition sliceWith (namespace subnet : string) : Slice.t :=
  Slice.mk "red" namespace "uid-red"
           (Some (SliceConfig.mk subnet 7)) "10.96.0.10".

Definition sliceWithoutConfig (namespace : string) : Slice.t :=
  Slice.mk "red" namespace "uid-red" None "".

Definition vppPod (namespace : string) : Pod.t :=
  Pod.mk (ObjectMeta.mk "nsm-vpp-forwarder-x" namespace
                        {[ "app" := nsmVppDataplaneCfgStr ]} []).

(** The cluster after [n] reconcile passes of a slice. *)
Fixpoint reconciled (n : nat) (slice : Slice.t) (c : Cluster) : Cluster :=
  match n with
  | O => c
  | Datatypes.S n' =>
      match ReconcileSliceRouter client globals slice (World.init c) with
      | Some (_, w') => reconciled n' slice (World.cluster w')
      | None => c
      end
  end.

(** A cluster whose pod list fails, and one whose Create fails. *)
Definition listFailing : Cluster :=
  mkCluster [] [] [(OpList, StatusError StatusReasonTimeout "list timed out")].

Definition createFailing : Cluster :=
  mkCluster [] [] [(OpCreate, StatusError StatusReasonForbidden "forbidden")].

End Fake.

(** ** The vocabulary of the properties *)

Definition envNames (c : Container.t) : list string :=
  map EnvVar.Name (Container.Env c).

(** A membership in a list of literal names that holds for none of them. *)
Ltac not_in_names H :=
  simpl in H;
  repeat (destruct H as [H|H]; [discriminate H|]);
  destruct H.

(** The client calls issued between two worlds of one run. *)
Definition callsSince {S} (w w' : World.t S) : list Call :=
  drop (length (World.calls w)) (World.calls w').

(** The key under which the router Deployment of a slice is looked up,
    and the key of its Service. *)
Definition routerDeploymentKey (slice : Slice.t) : NamespacedName.t :=
  NamespacedName.mk ("vl3-slice-router-" +:+ Slice.Name slice)
                    (Slice.Namespace slice).

Definition routerServiceKey (g : Globals) (slice : Slice.t) : NamespacedName.t :=
  NamespacedName.mk ("vl3-slice-router-" +:+ Slice.Name slice)
                    (ControlPlaneNamespace g).

(** The slice has no subnet yet: no [SliceConfig], or an empty subnet. *)
Definition subnetMissing (slice : Slice.t) : Prop :=
  Slice.StatusSliceConfig slice = None
  \/ exists cfg, Slice.StatusSliceConfig slice = Some cfg
                 /\ SliceConfig.SliceSubnet cfg = "".

(** Unfolds the steps of a run down to the client's answers. *)
Ltac run_monad :=
  unfold mbind, M_bind, mret, M_ret, Get, List, Create, Delete, Record_,
    orPanic, sliceRouterDeploymentNamePrefix;
  cbv beta.

(** The slice has a subnet: a [SliceConfig] with a non-empty subnet. *)
Definition subnetPopulated (slice : Slice.t) : Prop :=
  exists cfg, Slice.StatusSliceConfig slice = Some cfg
              /\ SliceConfig.SliceSubnet cfg <> "".

(** A pass that creates exactly one Deployment, named after the slice and
    in the slice's namespace, and then asks to be requeued. *)
Definition createsOneRouterDeployment {S} (r : Client.t S) (g : Globals)
    (slice : Slice.t) (w : World.t S) : Prop :=
  exists w' dep,
    ReconcileSliceRouter r g slice w
    = Some ((Result.mk false 10000000000, None, true), w')
    /\ List.filter isCreate (callsSince w w') = [CallCreate (ObjDeployment dep)]
    /\ ObjectMeta.Name (Deployment.Meta dep)
       = "vl3-slice-router-" +:+ Slice.Name slice
    /\ ObjectMeta.Namespace (Deployment.Meta dep) = Slice.Namespace slice.

(** The Service handed to Create: the literal with the owner references
    [SetControllerReference] gave. *)
Definition ownedService (g : Globals) (slice : Slice.t)
    (refs : list OwnerReference.t) : Service.t :=
  Service.setMeta (serviceForSliceRouter g slice)
    (ObjectMeta.setOwnerReferences
       (Service.Meta (serviceForSliceRouter g slice)) refs).

Definition routerWarning (slice : Slice.t) (message : string) : Event.t :=
  Event.mk slice EventTypeWarning "Error" message.

Section Passes.

Context {S : Type}.
Variable r : Client.t S.
Variable g : Globals.
Variable slice : Slice.t.
Variable w : World.t S.

Let getDep : Call := CallGet KindDeployment (routerDeploymentKey slice).
Let getSvc : Call := CallGet KindService (routerServiceKey g slice).
Let listPods : Call :=
  CallList (Slice.Namespace slice) {[ "app" := "nsm-vpp-plane" ]}.

Definition depAnswer : error + Object :=
  Client.Get r (World.cluster w) KindDeployment (routerDeploymentKey slice).
Definition svcAnswer : error + Object :=
  Client.Get r (World.cluster w) KindService (routerServiceKey g slice).
Definition podsAnswer : error + list Pod.t :=
  Client.List r (World.cluster w) (Slice.Namespace slice)
              {[ "app" := "nsm-vpp-plane" ]}.

(** The world after a pass that issued [calls], ended in cluster [c] and
    recorded [evs]. *)
Definition after (c : S) (calls : list Call) (evs : list Event.t) : World.t S :=
  World.mk c (World.calls w ++ calls) (World.events w ++ evs).

(** Every way a pass of [ReconcileSliceRouter] returns, path by path. *)
Inductive Pass : Result.t * option error * bool -> World.t S -> Prop :=
| PassGetDeploymentFailed err :
    depAnswer = inl err -> errors.IsNotFound err = false ->
    Pass (Result.empty, Some err, true) (after (World.cluster w) [getDep] [])
| PassWaitForSubnet err :
    depAnswer = inl err -> errors.IsNotFound err = true ->
    subnetMissing slice ->
    Pass (requeueAfter10s, None, true) (after (World.cluster w) [getDep] [])
| PassListFailed err cfg err' :
    depAnswer = inl err -> errors.IsNotFound err = true ->
    Slice.StatusSliceConfig slice = Some cfg ->
    SliceConfig.SliceSubnet cfg <> "" ->
    podsAnswer = inl err' ->
    Pass (Result.empty, Some err', true)
         (after (World.cluster w) [getDep; listPods] [])
| PassCreateDeploymentFailed err cfg items dep err' :
    depAnswer = inl err -> errors.IsNotFound err = true ->
    Slice.StatusSliceConfig slice = Some cfg ->
    SliceConfig.SliceSubnet cfg <> "" ->
    podsAnswer = inr items ->
    deploymentForSliceRouter r g slice
      (strconv.Itoa (SliceConfig.IpamClusterOctet cfg)) (dataplaneFor items)
    = Some dep ->
    Client.Create r (World.cluster w) (ObjDeployment dep) = inl err' ->
    Pass (Result.empty, Some err', true)
         (after (World.cluster w)
                [getDep; listPods; CallCreate (ObjDeployment dep)]
                [routerWarning slice "Error creating slice router"])
| PassDeploymentCreated err cfg items dep c' :
    depAnswer = inl err -> errors.IsNotFound err = true ->
    Slice.StatusSliceConfig slice = Some cfg ->
    SliceConfig.SliceSubnet cfg <> "" ->
    podsAnswer = inr items ->
    deploymentForSliceRouter r g slice
      (strconv.Itoa (SliceConfig.IpamClusterOctet cfg)) (dataplaneFor items)
    = Some dep ->
    Client.Create r (World.cluster w) (ObjDeployment dep) = inr c' ->
    Pass (requeueAfter10s, None, true)
         (after c' [getDep; listPods; CallCreate (ObjDeployment dep)] [])
| PassGetServiceFailed d err :
    depAnswer = inr d ->
    svcAnswer = inl err -> errors.IsNotFound err = false ->
    Pass (Result.empty, Some err, true)
         (after (World.cluster w) [getDep; getSvc] [])
| PassWaitForConfig d err :
    depAnswer = inr d ->
    svcAnswer = inl err -> errors.IsNotFound err = true ->
    Slice.StatusSliceConfig slice = None ->
    Pass (requeueAfter10s, None, true)
         (after (World.cluster w) [getDep; getSvc] [])
| PassOwnerReferenceFailed d err cfg refs err' :
    depAnswer = inr d ->
    svcAnswer = inl err -> errors.IsNotFound err = true ->
    Slice.StatusSliceConfig slice = Some cfg ->
    Client.SetControllerReference r slice
      (Service.Meta (serviceForSliceRouter g slice)) = (refs, Some err') ->
    Pass (Result.empty, Some err', true)
         (after (World.cluster w) [getDep; getSvc] [])
| PassCreateServiceFailed d err cfg refs err' :
    depAnswer = inr d ->
    svcAnswer = inl err -> errors.IsNotFound err = true ->
    Slice.StatusSliceConfig slice = Some cfg ->
    Client.SetControllerReference r slice
      (Service.Meta (serviceForSliceRouter g slice)) = (refs, None) ->
    Client.Create r (World.cluster w) (ObjService (ownedService g slice refs))
    = inl err' ->
    Pass (Result.empty, Some err', true)
         (after (World.cluster w)
                [getDep; getSvc;
                 CallCreate (ObjService (ownedService g slice refs))]
                [routerWarning slice "Error creating service for slice router"])
| PassServiceCreated d err cfg refs c' :
    depAnswer = inr d ->
    svcAnswer = inl err -> errors.IsNotFound err = true ->
    Slice.StatusSliceConfig slice = Some cfg ->
    Client.SetControllerReference r slice
      (Service.Meta (serviceForSliceRouter g slice)) = (refs, None) ->
    Client.Create r (World.cluster w) (ObjService (ownedService g slice refs))
    = inr c' ->
    Pass (requeueAfter10s, None, true)
         (after c'
                [getDep; getSvc;
                 CallCreate (ObjService (ownedService g slice refs))] [])
| PassNothingToDo d s :
    depAnswer = inr d -> svcAnswer = inr s ->
    Pass (Result.empty, None, false)
         (after (World.cluster w) [getDep; getSvc] []).

End Passes.

(** Brings a world built by a run to the form [after] gives it. *)
Ltac world_eq :=
  unfold after, logCall; simpl;
  rewrite ?app_nil_r, <- ?app_assoc; reflexivity.

(** The error a call meets on cluster [c], when it meets one that is not
    a lookup's not-found. *)
Definition hardFailure {S} (r : Client.t S) (c : S) (call : Call) : option error :=
  match call with
  | CallGet kind key =>
      match Client.Get r c kind key with
      | inl err => if errors.IsNotFound err then None else Some err
      | inr _ => None
      end
  | CallList namespace matchingLabels =>
      match Client.List r c namespace matchingLabels with
      | inl err => Some err
      | inr _ => None
      end
  | CallCreate obj =>
      match Client.Create r c obj with inl err => Some err | inr _ => None end
  | CallDelete obj =>
      match Client.Delete r c obj with inl err => Some err | inr _ => None end
  end.

(** Splits [pre ++ call :: post = l] for a literal [l] into its cases. *)
Ltac split_trace H pre :=
  destruct pre as [|? [|? [|? [|? pre]]]]; simpl in H;
  inversion H; subst; clear H.

(** Where a call of a pass for [slice] may go: the Deployment is read and
    created under the derived name in the slice's namespace, the Service
    under the same name in the control-plane namespace, and the pods are
    listed in the slice's namespace. *)
Definition routerCall (g : Globals) (slice : Slice.t) (call : Call) : Prop :=
  match call with
  | CallGet KindDeployment key =>
      key = NamespacedName.mk ("vl3-slice-router-" +:+ Slice.Name slice)
                              (Slice.Namespace slice)
  | CallGet KindService key =>
      key = NamespacedName.mk ("vl3-slice-router-" +:+ Slice.Name slice)
                              (ControlPlaneNamespace g)
  | CallGet KindNetworkService _ => False
  | CallList namespace _ => namespace = Slice.Namespace slice
  | CallCreate (ObjDeployment d) =>
      ObjectMeta.Name (Deployment.Meta d)
      = "vl3-slice-router-" +:+ Slice.Name slice
      /\ ObjectMeta.Namespace (Deployment.Meta d) = Slice.Namespace slice
  | CallCreate (ObjService s) =>
      ObjectMeta.Name (Service.Meta s)
      = "vl3-slice-router-" +:+ Slice.Name slice
      /\ ObjectMeta.Namespace (Service.Meta s) = ControlPlaneNamespace g
  | CallCreate (ObjNetworkService _) => False
  | CallDelete _ => False
  end.

(** The reading of C10 as stated: whatever Deployment and Service the
    passes for a slice create, their namespaces differ. *)
Definition routerNamespacesDiffer {S} (r : Client.t S) (g : Globals)
    (slice : Slice.t) : Prop :=
  forall (w1 w2 w1' w2' : World.t S) res1 res2 dep svc,
    ReconcileSliceRouter r g slice w1 = Some (res1, w1') ->
    In (CallCreate (ObjDeployment dep)) (callsSince w1 w1') ->
    ReconcileSliceRouter r g slice w2 = Some (res2, w2') ->
    In (CallCreate (ObjService svc)) (callsSince w2 w2') ->
    ObjectMeta.Namespace (Deployment.Meta dep)
    <> ObjectMeta.Namespace (Service.Meta svc).

(** * Properties *)

(** ** Splitting and the cluster prefix pool *)

Lemma Split_length (s : string) (sep : ascii) :
  length (strings.Split s sep) = S (strings.CountByte s sep).
Proof.
  induction s as [|c s IH]; simpl; [reflexivity|].
  destruct (Ascii.eqb c sep); simpl; [now rewrite IH|].
  destruct (strings.Split s sep) as [|piece pieces]; simpl in *; lia.
Qed.

Lemma setIndex_Some {A} (l : list A) (i : nat) (x : A) :
  (i < length l)%nat -> setIndex l i x = Some (<[i:=x]> l).
Proof. intros Hlt. unfold setIndex. now rewrite decide_True. Qed.

Lemma setIndex_None {A} (l : list A) (i : nat) (x : A) :
  (length l <= i)%nat -> setIndex l i x = None.
Proof. intros Hle. unfold setIndex. rewrite decide_False; [reflexivity|lia]. Qed.

Lemma getClusterPrefixPool_short (sliceSubnet ipamOctet : string) :
  (length (strings.Split sliceSubnet "."%char) < 4)%nat ->
  getClusterPrefixPool sliceSubnet ipamOctet = None.
Proof.
  intros Hlen. unfold getClusterPrefixPool.
  destruct (decide (2 < length (strings.Split sliceSubnet "."%char))%nat) as [H2|H2].
  - rewrite (setIndex_Some _ _ _ H2). simpl.
    rewrite setIndex_None by (rewrite length_insert; lia). reflexivity.
  - rewrite setIndex_None by lia. reflexivity.
Qed.

Lemma getClusterPrefixPool_long (sliceSubnet ipamOctet c0 c1 c2 c3 : string)
    (rest : list string) :
  strings.Split sliceSubnet "."%char = c0 :: c1 :: c2 :: c3 :: rest ->
  getClusterPrefixPool sliceSubnet ipamOctet
  = Some (strings.Join (c0 :: c1 :: ipamOctet :: "0/24" :: rest) ".").
Proof.
  intros Hsplit. unfold getClusterPrefixPool. rewrite Hsplit. reflexivity.
Qed.

Lemma Split_four (s : string) :
  (3 <= strings.CountByte s "."%char)%nat ->
  exists c0 c1 c2 c3 rest,
    strings.Split s "."%char = c0 :: c1 :: c2 :: c3 :: rest.
Proof.
  intros Hdots. pose proof (Split_length s "."%char) as Hlen.
  destruct (strings.Split s "."%char) as [|c0 [|c1 [|c2 [|c3 rest]]]];
    simpl in Hlen; try lia.
  now exists c0, c1, c2, c3, rest.
Qed.

Lemma getClusterPrefixPool_is_Some (sliceSubnet ipamOctet : string) :
  is_Some (getClusterPrefixPool sliceSubnet ipamOctet)
  <-> (3 <= strings.CountByte sliceSubnet "."%char)%nat.
Proof.
  split.
  - intros [pool Hpool].
    destruct (decide (3 <= strings.CountByte sliceSubnet "."%char)%nat) as [|Hlt];
      [assumption|].
    rewrite getClusterPrefixPool_short in Hpool; [discriminate|].
    rewrite Split_length. lia.
  - intros Hdots. destruct (Split_four _ Hdots) as (c0 & c1 & c2 & c3 & rest & Hs).
    rewrite (getClusterPrefixPool_long _ ipamOctet _ _ _ _ _ Hs). eauto.
Qed.

(** C9. [getClusterPrefixPool] is partial. It returns a result exactly
    for a subnet with at least three dots, that is with at least four
    dot-separated components; the result then is the first two components
    of the subnet, the ipamOctet as third component and ["0/24"] as fourth,
    joined with dots (followed by the components past the fourth, when the
    subnet has any). A subnet with fewer than three dots, the empty string
    among them, makes the indexing of components 2 and 3 run out of range:
    the function has no result there. *)
Theorem getClusterPrefixPool_partial (sliceSubnet ipamOctet : string) :
  (is_Some (getClusterPrefixPool sliceSubnet ipamOctet)
   <-> (4 <= length (strings.Split sliceSubnet "."%char))%nat)
  /\ ((4 <= length (strings.Split sliceSubnet "."%char))%nat
      <-> (3 <= strings.CountByte sliceSubnet "."%char)%nat)
  /\ (forall c0 c1 c2 c3 rest,
        strings.Split sliceSubnet "."%char = c0 :: c1 :: c2 :: c3 :: rest ->
        getClusterPrefixPool sliceSubnet ipamOctet
        = Some (strings.Join (c0 :: c1 :: ipamOctet :: "0/24" :: rest) "."))
  /\ (forall c0 c1 c2 c3,
        strings.Split sliceSubnet "."%char = [c0; c1; c2; c3] ->
        getClusterPrefixPool sliceSubnet ipamOctet
        = Some (c0 +:+ "." +:+ c1 +:+ "." +:+ ipamOctet +:+ "." +:+ "0/24"))
  /\ ((strings.CountByte sliceSubnet "."%char < 3)%nat ->
      getClusterPrefixPool sliceSubnet ipamOctet = None)
  /\ getClusterPrefixPool "" ipamOctet = None.
Proof.
  assert (Hlen : (4 <= length (strings.Split sliceSubnet "."%char))%nat
                 <-> (3 <= strings.CountByte sliceSubnet "."%char)%nat)
    by (rewrite Split_length; lia).
  repeat split.
  - intros H. apply Hlen. now apply getClusterPrefixPool_is_Some in H.
  - intros H. apply getClusterPrefixPool_is_Some. now apply Hlen.
  - apply Hlen.
  - apply Hlen.
  - intros c0 c1 c2 c3 rest. apply getClusterPrefixPool_long.
  - intros c0 c1 c2 c3 Hs.
    rewrite (getClusterPrefixPool_long _ ipamOctet _ _ _ _ _ Hs). reflexivity.
  - intros Hlt. apply getClusterPrefixPool_short. rewrite Split_length. lia.
Qed.

Lemma getClusterPrefixPool_partial_witness :
  strings.Split "10.1.0.0/16" "."%char = ["10"; "1"; "0"; "0/16"]
  /\ getClusterPrefixPool "10.1.0.0/16" "7" = Some "10.1.7.0/24"
  /\ (strings.CountByte "10.1" "."%char < 3)%nat
  /\ getClusterPrefixPool "10.1" "7" = None.
Proof.
  pose proof (getClusterPrefixPool_partial "10.1.0.0/16" "7")
    as (_ & _ & _ & Hfour & _).
  pose proof (getClusterPrefixPool_partial "10.1" "7")
    as (_ & _ & _ & _ & Hshort & _).
  split; [reflexivity|].
  split; [exact (Hfour "10" "1" "0" "0/16" eq_refl)|].
  assert (Hlt : (strings.CountByte "10.1" "."%char < 3)%nat) by (simpl; lia).
  split; [exact Hlt | exact (Hshort Hlt)].
Defined.

(** ** The router container and its volumes *)

Lemma dataplane_cases (dataplane : string) :
  (dataplane = nsmDataplaneKernel
   /\ String.eqb dataplane nsmDataplaneKernel = true
   /\ String.eqb dataplane nsmDataplaneVpp = false)
  \/ (dataplane = nsmDataplaneVpp
      /\ String.eqb dataplane nsmDataplaneKernel = false
      /\ String.eqb dataplane nsmDataplaneVpp = true)
  \/ (dataplane <> nsmDataplaneKernel /\ dataplane <> nsmDataplaneVpp
      /\ String.eqb dataplane nsmDataplaneKernel = false
      /\ String.eqb dataplane nsmDataplaneVpp = false).
Proof.
  destruct (String.eqb dataplane nsmDataplaneKernel) eqn:Hk.
  - apply String.eqb_eq in Hk. subst. left. repeat split.
  - destruct (String.eqb dataplane nsmDataplaneVpp) eqn:Hv.
    + apply String.eqb_eq in Hv. subst. right. left. repeat split.
    + apply String.eqb_neq in Hk, Hv. right. right. repeat split; assumption.
Qed.

(** C7. The extra environment variables and volumes of the router branch
    on the dataplane mode alone. After the six common variables and the
    shared volume, kernel mode has exactly IP_ADDRESS, DST_ROUTES,
    DNS_NAMESERVERS and DNS_DOMAINS, no volume mount and no further volume;
    VPP mode has exactly NSE_IPAM_UNIQUE_OCTET, the mount of the
    universal-cnf config volume and that ConfigMap volume; any other mode has
    nothing extra. No built container carries a variable of both sets, and
    the Deployment holds this container and these volumes. *)
Theorem router_extras_branch_on_dataplane
    {S : Type} (r : Client.t S) (g : Globals) (s : Slice.t)
    (ipamOctet dataplane : string) (c : Container.t) :
  getContainerSpecForSliceRouter g s ipamOctet dataplane = Some c ->
  let extraEnv := drop 6 (Container.Env c) in
  let extraVolumes := drop 1 (getVolumeSpecForSliceRouter s dataplane) in
  take 6 (Container.Env c) = sliceRouterBaseEnv g s dataplane
  /\ take 1 (getVolumeSpecForSliceRouter s dataplane)
     = [Volume.mk "shared-volume" EmptyDir]
  /\ (dataplane = "kernel" ->
      exists cfg pool,
        Slice.StatusSliceConfig s = Some cfg
        /\ getClusterPrefixPool (SliceConfig.SliceSubnet cfg) ipamOctet = Some pool
        /\ extraEnv = [ EnvVar.mk "IP_ADDRESS" pool;
                        EnvVar.mk "DST_ROUTES" (SliceConfig.SliceSubnet cfg);
                        EnvVar.mk "DNS_NAMESERVERS" (Slice.StatusDNSIP s);
                        EnvVar.mk "DNS_DOMAINS" "slice.local" ]
        /\ Container.VolumeMounts c = []
        /\ extraVolumes = [])
  /\ (dataplane = "vpp" ->
      extraEnv = [ EnvVar.mk "NSE_IPAM_UNIQUE_OCTET" ipamOctet ]
      /\ Container.VolumeMounts c
         = [ VolumeMount.mk "universal-cnf-config-volume"
                            "/etc/universal-cnf/config.yaml" "config.yaml" ]
      /\ extraVolumes
         = [ Volume.mk "universal-cnf-config-volume"
                       (ConfigMap ("ucnf-vl3-service-" +:+ Slice.Name s)) ])
  /\ (dataplane <> "kernel" -> dataplane <> "vpp" ->
      extraEnv = [] /\ Container.VolumeMounts c = [] /\ extraVolumes = [])
  /\ ~ (In "IP_ADDRESS" (envNames c) /\ In "NSE_IPAM_UNIQUE_OCTET" (envNames c))
  /\ (In "IP_ADDRESS" (envNames c) ->
      Container.VolumeMounts c = [] /\ extraVolumes = [])
  /\ (forall dep,
        deploymentForSliceRouter r g s ipamOctet dataplane = Some dep ->
        PodSpec.Containers (Deployment.TemplateSpec dep)
        = [c; getContainerSpecForSliceRouterSidecar g dataplane]
        /\ PodSpec.Volumes (Deployment.TemplateSpec dep)
           = getVolumeSpecForSliceRouter s dataplane).
Proof.
  intros Hc extraEnv extraVolumes. subst extraEnv extraVolumes.
  assert (Hdep : forall dep,
             deploymentForSliceRouter r g s ipamOctet dataplane = Some dep ->
             PodSpec.Containers (Deployment.TemplateSpec dep)
             = [c; getContainerSpecForSliceRouterSidecar g dataplane]
             /\ PodSpec.Volumes (Deployment.TemplateSpec dep)
                = getVolumeSpecForSliceRouter s dataplane).
  { intros dep Hd. unfold deploymentForSliceRouter in Hd. rewrite Hc in Hd.
    simpl in Hd.
    destruct (Client.SetControllerReference r s _) as [refs e].
    destruct (negb _); inversion Hd; subst; simpl; split; reflexivity. }
  unfold getContainerSpecForSliceRouter in Hc.
  destruct (Slice.StatusSliceConfig s) as [cfg|] eqn:Hcfg; [|discriminate].
  simpl in Hc.
  destruct (getClusterPrefixPool (SliceConfig.SliceSubnet cfg) ipamOctet)
    as [pool|] eqn:Hpool; [|discriminate].
  simpl in Hc. unfold getVolumeSpecForSliceRouter, envNames in *.
  destruct (dataplane_cases dataplane)
    as [(Hd & Hk & Hv) | [(Hd & Hk & Hv) | (Hnk & Hnv & Hk & Hv)]];
    rewrite Hk, Hv in Hc; rewrite Hv in Hdep |- *;
    inversion Hc; subst c; clear Hc; simpl;
    split_and!; try reflexivity; try exact Hdep.
  - intros _. exists cfg, pool. split_and!; reflexivity || assumption.
  - intros Heq. rewrite Heq in Hd. discriminate Hd.
  - intros Hnk. destruct (Hnk Hd).
  - intros [_ Hin]. not_in_names Hin.
  - intros _. split; reflexivity.
  - intros Heq. rewrite Heq in Hd. discriminate Hd.
  - intros _. split_and!; reflexivity.
  - intros _ Hnv. destruct (Hnv Hd).
  - intros [Hin _]. not_in_names Hin.
  - intros Hin. not_in_names Hin.
  - intros Heq. destruct (Hnk Heq).
  - intros Heq. destruct (Hnv Heq).
  - intros _ _. split_and!; reflexivity.
  - intros [Hin _]. not_in_names Hin.
  - intros Hin. not_in_names Hin.
Qed.

Lemma router_extras_branch_on_dataplane_witness :
  exists c,
    getContainerSpecForSliceRouter Fake.globals
      (Fake.sliceWith "kubeslice-system" "10.1.0.0/16") "7" "vpp" = Some c
    /\ drop 6 (Container.Env c) = [ EnvVar.mk "NSE_IPAM_UNIQUE_OCTET" "7" ]
    /\ ~ (In "IP_ADDRESS" (envNames c)
          /\ In "NSE_IPAM_UNIQUE_OCTET" (envNames c)).
Proof.
  eexists. split; [reflexivity|].
  pose proof (router_extras_branch_on_dataplane Fake.client Fake.globals
                (Fake.sliceWith "kubeslice-system" "10.1.0.0/16") "7" "vpp"
                _ eq_refl) as H.
  destruct H as (_ & _ & _ & Hvpp & _ & Hexcl & _).
  split; [exact (proj1 (Hvpp eq_refl)) | exact Hexcl].
Defined.

(** ** Running the reconciler *)

Lemma callsSince_app {S} (w : World.t S) (c : S) (l : list Call)
    (e : list Event.t) :
  callsSince w (World.mk c (World.calls w ++ l) e) = l.
Proof. unfold callsSince. simpl. apply drop_app_length. Qed.

Lemma callsSince_logCall {S} (w : World.t S) (c : Call) :
  callsSince w (logCall c w) = [c].
Proof. unfold logCall. apply callsSince_app. Qed.

Lemma callsSince_logCall2 {S} (w : World.t S) (c1 c2 : Call) :
  callsSince w (logCall c2 (logCall c1 w)) = [c1; c2].
Proof.
  unfold logCall. simpl. rewrite <- app_assoc. apply callsSince_app.
Qed.

(** C1. When the router Deployment is absent (the lookup answers not
    found) and the slice has no subnet yet, [ReconcileSliceRouter] issues
    the lookup and nothing else, so no Create, leaves the cluster as it
    was, and returns a requeue after ten seconds, a nil error and
    changed = true. *)
Theorem ReconcileSliceRouter_waits_for_subnet
    {S : Type} (r : Client.t S) (g : Globals) (slice : Slice.t)
    (w : World.t S) (err : error) :
  Client.Get r (World.cluster w) KindDeployment (routerDeploymentKey slice)
  = inl err ->
  errors.IsNotFound err = true ->
  subnetMissing slice ->
  exists w',
    ReconcileSliceRouter r g slice w
    = Some ((Result.mk false 10000000000, None, true), w')
    /\ callsSince w w' = [CallGet KindDeployment (routerDeploymentKey slice)]
    /\ List.filter isCreate (callsSince w w') = []
    /\ World.cluster w' = World.cluster w
    /\ World.events w' = World.events w.
Proof.
  intros Hget Hnf Hsub.
  exists (logCall (CallGet KindDeployment (routerDeploymentKey slice)) w).
  rewrite callsSince_logCall. split_and!; try reflexivity.
  unfold routerDeploymentKey in *. unfold ReconcileSliceRouter. run_monad.
  rewrite Hget, Hnf.
  destruct Hsub as [Hnone | (cfg & Hcfg & Hempty)].
  - rewrite Hnone. reflexivity.
  - rewrite Hcfg, Hempty. reflexivity.
Qed.

Lemma ReconcileSliceRouter_waits_for_subnet_witness :
  exists w',
    ReconcileSliceRouter Fake.client Fake.globals
      (Fake.sliceWith "kubeslice-system" "") (World.init Fake.empty)
    = Some ((Result.mk false 10000000000, None, true), w')
    /\ callsSince (World.init Fake.empty) w'
       = [CallGet KindDeployment
            (routerDeploymentKey (Fake.sliceWith "kubeslice-system" ""))]
    /\ List.filter isCreate (callsSince (World.init Fake.empty) w') = []
    /\ World.cluster w' = Fake.empty
    /\ World.events w' = [].
Proof.
  apply (ReconcileSliceRouter_waits_for_subnet Fake.client Fake.globals
           (Fake.sliceWith "kubeslice-system" "") (World.init Fake.empty)
           (Fake.notFound "vl3-slice-router-red")).
  - reflexivity.
  - reflexivity.
  - right. eexists. split; reflexivity.
Defined.

(** C2. [getNsmDataplaneMode] lists the pods labelled app=nsm-vpp-plane in
    the slice's namespace. When the list is answered, the mode returned is
    the VPP string exactly when the list holds at least one pod, and the
    kernel string when the list is empty; and only an answered list with at
    least one pod ever yields the VPP string. *)
Theorem getNsmDataplaneMode_follows_vpp_pods
    {S : Type} (r : Client.t S) (slice : Slice.t) (w : World.t S) :
  let listed :=
    Client.List r (World.cluster w) (Slice.Namespace slice)
                {[ "app" := "nsm-vpp-plane" ]} in
  (forall items,
      listed = inr items ->
      exists mode,
        getNsmDataplaneMode r slice w
        = Some ((mode, None),
                logCall (CallList (Slice.Namespace slice)
                                  {[ "app" := "nsm-vpp-plane" ]}) w)
        /\ (mode = "vpp" <-> (1 <= length items)%nat)
        /\ (items = [] -> mode = "kernel")
        /\ (mode = "vpp" \/ mode = "kernel"))
  /\ (forall mode err w',
        getNsmDataplaneMode r slice w = Some ((mode, err), w') ->
        mode = "vpp" ->
        exists items, listed = inr items /\ (1 <= length items)%nat).
Proof.
  intros listed. subst listed. split.
  - intros items Hlist. unfold getNsmDataplaneMode. run_monad.
    unfold nsmVppDataplaneCfgStr. rewrite Hlist.
    destruct items as [|p items]; simpl.
    + exists "kernel". split_and!; try reflexivity.
      * split; [discriminate | lia].
      * now right.
    + exists "vpp". split_and!; try reflexivity.
      * split; [lia | reflexivity].
      * discriminate.
      * now left.
  - intros mode err w'. unfold getNsmDataplaneMode. run_monad.
    unfold nsmVppDataplaneCfgStr.
    destruct (Client.List r _ _ _) as [e|items]; simpl.
    + intros Hrun Hmode. inversion Hrun; subst. discriminate.
    + destruct items as [|p items]; simpl; intros Hrun Hmode;
        inversion Hrun; subst; [discriminate|].
      eexists. split; [reflexivity | simpl; lia].
Qed.

Lemma getNsmDataplaneMode_follows_vpp_pods_witness :
  exists mode,
    getNsmDataplaneMode Fake.client (Fake.sliceWith "blue" "10.1.0.0/16")
      (World.init (Fake.mkCluster [] [Fake.vppPod "blue"; Fake.vppPod "green"] []))
    = Some ((mode, None),
            logCall (CallList "blue" {[ "app" := "nsm-vpp-plane" ]})
              (World.init
                 (Fake.mkCluster [] [Fake.vppPod "blue"; Fake.vppPod "green"] [])))
    /\ mode = "vpp".
Proof.
  destruct (getNsmDataplaneMode_follows_vpp_pods Fake.client
              (Fake.sliceWith "blue" "10.1.0.0/16")
              (World.init
                 (Fake.mkCluster [] [Fake.vppPod "blue"; Fake.vppPod "green"] [])))
    as [Hlisted _].
  destruct (Hlisted [Fake.vppPod "blue"] ltac:(vm_compute; reflexivity))
    as (mode & Hrun & Hvpp & _).
  exists mode. split; [exact Hrun|]. apply Hvpp. simpl. lia.
Defined.

(** C3. When the router Deployment (looked up in the slice's namespace)
    and the router Service (looked up under the derived name) both exist,
    [ReconcileSliceRouter] issues the two lookups and no write, neither a
    Create nor a Delete, leaves the cluster as it was, and returns the empty
    result, a nil error and changed = false. *)
Theorem ReconcileSliceRouter_provisioned_is_noop
    {S : Type} (r : Client.t S) (g : Globals) (slice : Slice.t)
    (w : World.t S) (dep svc : Object) :
  Client.Get r (World.cluster w) KindDeployment (routerDeploymentKey slice)
  = inr dep ->
  Client.Get r (World.cluster w) KindService (routerServiceKey g slice)
  = inr svc ->
  exists w',
    ReconcileSliceRouter r g slice w
    = Some ((Result.mk false 0, None, false), w')
    /\ callsSince w w'
       = [ CallGet KindDeployment (routerDeploymentKey slice);
           CallGet KindService (routerServiceKey g slice) ]
    /\ List.filter isWrite (callsSince w w') = []
    /\ World.cluster w' = World.cluster w
    /\ World.events w' = World.events w.
Proof.
  intros Hdep Hsvc.
  exists (logCall (CallGet KindService (routerServiceKey g slice))
            (logCall (CallGet KindDeployment (routerDeploymentKey slice)) w)).
  rewrite callsSince_logCall2. split_and!; try reflexivity.
  unfold routerDeploymentKey, routerServiceKey in *.
  unfold ReconcileSliceRouter. run_monad. rewrite Hdep. simpl.
  rewrite Hsvc. reflexivity.
Qed.

(** C5. When no network-service object named "vl3-service-" + slice name
    exists (the lookup answers not found), [cleanupSliceRouter] returns nil:
    it issues the lookup and nothing else, so no Delete, and the cluster
    stays as it was. *)
Theorem cleanupSliceRouter_absent_is_success
    {S : Type} (r : Client.t S) (g : Globals) (sliceName : string)
    (w : World.t S) (err : error) :
  Client.Get r (World.cluster w) KindNetworkService
             (NamespacedName.mk ("vl3-service-" +:+ sliceName)
                                (ControlPlaneNamespace g))
  = inl err ->
  errors.IsNotFound err = true ->
  exists w',
    cleanupSliceRouter r g sliceName w = Some (None, w')
    /\ callsSince w w'
       = [ CallGet KindNetworkService
             (NamespacedName.mk ("vl3-service-" +:+ sliceName)
                                (ControlPlaneNamespace g)) ]
    /\ List.filter isDelete (callsSince w w') = []
    /\ World.cluster w' = World.cluster w.
Proof.
  intros Hget Hnf.
  eexists (logCall _ w). rewrite callsSince_logCall.
  split_and!; try reflexivity.
  unfold cleanupSliceRouter. run_monad. rewrite Hget, Hnf. reflexivity.
Qed.

Lemma cleanupSliceRouter_absent_is_success_witness :
  exists w',
    cleanupSliceRouter Fake.client Fake.globals "red" (World.init Fake.empty)
    = Some (None, w')
    /\ callsSince (World.init Fake.empty) w'
       = [ CallGet KindNetworkService
             (NamespacedName.mk "vl3-service-red" "kubeslice-system") ]
    /\ List.filter isDelete (callsSince (World.init Fake.empty) w') = []
    /\ World.cluster w' = Fake.empty.
Proof.
  apply (cleanupSliceRouter_absent_is_success Fake.client Fake.globals "red"
           (World.init Fake.empty) (Fake.notFound "vl3-service-red"));
    reflexivity.
Defined.

Lemma ReconcileSliceRouter_provisioned_is_noop_witness :
  exists w',
    ReconcileSliceRouter Fake.client Fake.globals
      (Fake.sliceWith "kubeslice-system" "10.1.0.0/16")
      (World.init (Fake.reconciled 2
                     (Fake.sliceWith "kubeslice-system" "10.1.0.0/16")
                     Fake.empty))
    = Some ((Result.mk false 0, None, false), w')
    /\ callsSince
         (World.init (Fake.reconciled 2
                        (Fake.sliceWith "kubeslice-system" "10.1.0.0/16")
                        Fake.empty)) w'
       = [ CallGet KindDeployment
             (NamespacedName.mk "vl3-slice-router-red" "kubeslice-system");
           CallGet KindService
             (NamespacedName.mk "vl3-slice-router-red" "kubeslice-system") ]
    /\ List.filter isWrite
         (callsSince
            (World.init (Fake.reconciled 2
                           (Fake.sliceWith "kubeslice-system" "10.1.0.0/16")
                           Fake.empty)) w') = []
    /\ World.cluster w'
       = Fake.reconciled 2 (Fake.sliceWith "kubeslice-system" "10.1.0.0/16")
                         Fake.empty
    /\ World.events w' = [].
Proof.
  eapply (ReconcileSliceRouter_provisioned_is_noop Fake.client Fake.globals
            (Fake.sliceWith "kubeslice-system" "10.1.0.0/16")
            (World.init (Fake.reconciled 2
                           (Fake.sliceWith "kubeslice-system" "10.1.0.0/16")
                           Fake.empty))).
  - vm_compute. reflexivity.
  - vm_compute. reflexivity.
Defined.

(** ** Steps of a pass, one lemma per outcome *)

Arguments deploymentForSliceRouter : simpl never.
Arguments labelsForSliceRouterDeployment : simpl never.
Arguments strconv.Itoa : simpl never.

Lemma getContainerSpecForSliceRouter_is_Some (g : Globals) (s : Slice.t)
    (cfg : SliceConfig.t) (ipamOctet dataplane : string) :
  Slice.StatusSliceConfig s = Some cfg ->
  (3 <= strings.CountByte (SliceConfig.SliceSubnet cfg) "."%char)%nat ->
  is_Some (getContainerSpecForSliceRouter g s ipamOctet dataplane).
Proof.
  intros Hcfg Hdots. unfold getContainerSpecForSliceRouter. rewrite Hcfg.
  apply (getClusterPrefixPool_is_Some _ ipamOctet) in Hdots.
  destruct Hdots as [pool Hpool]. simpl. rewrite Hpool. simpl. eauto.
Qed.

Lemma deploymentForSliceRouter_is_Some {S} (r : Client.t S) (g : Globals)
    (s : Slice.t) (cfg : SliceConfig.t) (ipamOctet dataplane : string) :
  Slice.StatusSliceConfig s = Some cfg ->
  (3 <= strings.CountByte (SliceConfig.SliceSubnet cfg) "."%char)%nat ->
  is_Some (deploymentForSliceRouter r g s ipamOctet dataplane).
Proof.
  intros Hcfg Hdots.
  destruct (getContainerSpecForSliceRouter_is_Some g s cfg ipamOctet dataplane
              Hcfg Hdots) as [c Hc].
  unfold deploymentForSliceRouter. rewrite Hc. simpl.
  destruct (Client.SetControllerReference r s _) as [refs e]. eauto.
Qed.

Lemma deploymentForSliceRouter_meta {S} (r : Client.t S) (g : Globals)
    (s : Slice.t) (ipamOctet dataplane : string) (dep : Deployment.t) :
  deploymentForSliceRouter r g s ipamOctet dataplane = Some dep ->
  ObjectMeta.Name (Deployment.Meta dep) = "vl3-slice-router-" +:+ Slice.Name s
  /\ ObjectMeta.Namespace (Deployment.Meta dep) = Slice.Namespace s
  /\ Deployment.MatchLabels dep = labelsForSliceRouterDeployment (Slice.Name s)
  /\ Deployment.TemplateLabels dep
     = labelsForSliceRouterDeployment (Slice.Name s).
Proof.
  unfold deploymentForSliceRouter.
  destruct (getContainerSpecForSliceRouter g s ipamOctet dataplane) as [c|];
    [|discriminate].
  simpl. destruct (Client.SetControllerReference r s _) as [refs e].
  destruct (negb _); intros Hdep; inversion Hdep; subst dep;
    split_and!; reflexivity.
Qed.

Section Steps.

Context {S : Type}.
Variable r : Client.t S.
Variable g : Globals.
Variable slice : Slice.t.

Let listCall : Call :=
  CallList (Slice.Namespace slice) {[ "app" := "nsm-vpp-plane" ]}.

Lemma getNsmDataplaneMode_listed (w : World.t S) (items : list Pod.t) :
  Client.List r (World.cluster w) (Slice.Namespace slice)
              {[ "app" := "nsm-vpp-plane" ]} = inr items ->
  getNsmDataplaneMode r slice w
  = Some ((dataplaneFor items, None), logCall listCall w).
Proof.
  intros Hlist. unfold getNsmDataplaneMode. run_monad.
  unfold nsmVppDataplaneCfgStr. rewrite Hlist. unfold dataplaneFor.
  destruct (0 <? length items)%nat; reflexivity.
Qed.

Lemma getNsmDataplaneMode_list_failed (w : World.t S) (err : error) :
  Client.List r (World.cluster w) (Slice.Namespace slice)
              {[ "app" := "nsm-vpp-plane" ]} = inl err ->
  getNsmDataplaneMode r slice w = Some (("", Some err), logCall listCall w).
Proof.
  intros Hlist. unfold getNsmDataplaneMode. run_monad.
  unfold nsmVppDataplaneCfgStr. rewrite Hlist. reflexivity.
Qed.

Lemma dataplaneFor_valid (items : list Pod.t) :
  negb (String.eqb (dataplaneFor items) nsmDataplaneKernel)
  && negb (String.eqb (dataplaneFor items) nsmDataplaneVpp) = false.
Proof. unfold dataplaneFor. destruct (0 <? length items)%nat; reflexivity. Qed.

Lemma deploySliceRouter_list_failed (w : World.t S) (err : error) :
  Client.List r (World.cluster w) (Slice.Namespace slice)
              {[ "app" := "nsm-vpp-plane" ]} = inl err ->
  deploySliceRouter r g slice w = Some (Some err, logCall listCall w).
Proof.
  intros Hlist. unfold deploySliceRouter, mbind, M_bind.
  rewrite (getNsmDataplaneMode_list_failed w err Hlist). reflexivity.
Qed.

Lemma deploySliceRouter_created (w : World.t S) (items : list Pod.t)
    (cfg : SliceConfig.t) (dep : Deployment.t) (c' : S) :
  Client.List r (World.cluster w) (Slice.Namespace slice)
              {[ "app" := "nsm-vpp-plane" ]} = inr items ->
  Slice.StatusSliceConfig slice = Some cfg ->
  deploymentForSliceRouter r g slice
    (strconv.Itoa (SliceConfig.IpamClusterOctet cfg)) (dataplaneFor items)
  = Some dep ->
  Client.Create r (World.cluster w) (ObjDeployment dep) = inr c' ->
  deploySliceRouter r g slice w
  = Some (None,
          World.mk c'
            (World.calls w ++ [listCall; CallCreate (ObjDeployment dep)])
            (World.events w)).
Proof.
  intros Hlist Hcfg Hdep Hcreate. unfold deploySliceRouter, mbind, M_bind.
  rewrite (getNsmDataplaneMode_listed w items Hlist).
  rewrite dataplaneFor_valid, Hcfg.
  unfold orPanic. rewrite Hdep. unfold Create, logCall. simpl.
  rewrite Hcreate. unfold mret, M_ret.
  rewrite <- app_assoc. reflexivity.
Qed.

Lemma deploySliceRouter_create_failed (w : World.t S) (items : list Pod.t)
    (cfg : SliceConfig.t) (dep : Deployment.t) (err : error) :
  Client.List r (World.cluster w) (Slice.Namespace slice)
              {[ "app" := "nsm-vpp-plane" ]} = inr items ->
  Slice.StatusSliceConfig slice = Some cfg ->
  deploymentForSliceRouter r g slice
    (strconv.Itoa (SliceConfig.IpamClusterOctet cfg)) (dataplaneFor items)
  = Some dep ->
  Client.Create r (World.cluster w) (ObjDeployment dep) = inl err ->
  deploySliceRouter r g slice w
  = Some (Some err,
          World.mk (World.cluster w)
            (World.calls w ++ [listCall; CallCreate (ObjDeployment dep)])
            (World.events w
             ++ [Event.mk slice EventTypeWarning "Error"
                          "Error creating slice router"])).
Proof.
  intros Hlist Hcfg Hdep Hcreate. unfold deploySliceRouter, mbind, M_bind.
  rewrite (getNsmDataplaneMode_listed w items Hlist).
  rewrite dataplaneFor_valid, Hcfg.
  unfold orPanic. rewrite Hdep. unfold Create, logCall. simpl.
  rewrite Hcreate. unfold mret, M_ret, Record_, logCall. simpl.
  rewrite <- app_assoc. reflexivity.
Qed.

End Steps.

(** ** Creating the router Deployment *)

(** C4, as stated, fails: with a subnet set and the Deployment absent, a
    pass whose pod list fails creates nothing and returns the error. *)
Lemma ReconcileSliceRouter_list_failure_creates_nothing :
  Client.Get Fake.client Fake.listFailing KindDeployment
             (routerDeploymentKey (Fake.sliceWith "kubeslice-system" "10.1.0.0/16"))
  = inl (Fake.notFound "vl3-slice-router-red")
  /\ subnetPopulated (Fake.sliceWith "kubeslice-system" "10.1.0.0/16")
  /\ ReconcileSliceRouter Fake.client Fake.globals
       (Fake.sliceWith "kubeslice-system" "10.1.0.0/16")
       (World.init Fake.listFailing)
     = Some ((Result.empty,
              Some (StatusError StatusReasonTimeout "list timed out"), true),
             World.mk Fake.listFailing
               [ CallGet KindDeployment
                   (NamespacedName.mk "vl3-slice-router-red" "kubeslice-system");
                 CallList "kubeslice-system" {[ "app" := "nsm-vpp-plane" ]} ]
               [])
  /\ ~ createsOneRouterDeployment Fake.client Fake.globals
         (Fake.sliceWith "kubeslice-system" "10.1.0.0/16")
         (World.init Fake.listFailing).
Proof.
  assert (Hrun :
    ReconcileSliceRouter Fake.client Fake.globals
      (Fake.sliceWith "kubeslice-system" "10.1.0.0/16")
      (World.init Fake.listFailing)
    = Some ((Result.empty,
             Some (StatusError StatusReasonTimeout "list timed out"), true),
            World.mk Fake.listFailing
              [ CallGet KindDeployment
                  (NamespacedName.mk "vl3-slice-router-red" "kubeslice-system");
                CallList "kubeslice-system" {[ "app" := "nsm-vpp-plane" ]} ]
              [])) by (vm_compute; reflexivity).
  split_and!.
  - reflexivity.
  - eexists. split; [reflexivity | discriminate].
  - exact Hrun.
  - intros (w' & dep & Hrun' & _). rewrite Hrun in Hrun'. discriminate Hrun'.
Qed.

(** C4, amended. When the router Deployment is absent, the slice's subnet
    is set and has at least four dot-separated components, and the pod
    list is answered, [ReconcileSliceRouter] builds a Deployment named
    "vl3-slice-router-" + slice name in the slice's namespace; when the
    client accepts its creation, the pass issues exactly one Create, of
    that Deployment, and returns a requeue after ten seconds with a nil
    error and changed = true. *)
Theorem ReconcileSliceRouter_creates_router_deployment
    {S : Type} (r : Client.t S) (g : Globals) (slice : Slice.t)
    (w : World.t S) (err : error) (cfg : SliceConfig.t) (items : list Pod.t) :
  Client.Get r (World.cluster w) KindDeployment (routerDeploymentKey slice)
  = inl err ->
  errors.IsNotFound err = true ->
  Slice.StatusSliceConfig slice = Some cfg ->
  SliceConfig.SliceSubnet cfg <> "" ->
  (3 <= strings.CountByte (SliceConfig.SliceSubnet cfg) "."%char)%nat ->
  Client.List r (World.cluster w) (Slice.Namespace slice)
              {[ "app" := "nsm-vpp-plane" ]} = inr items ->
  exists dep,
    deploymentForSliceRouter r g slice
      (strconv.Itoa (SliceConfig.IpamClusterOctet cfg)) (dataplaneFor items)
    = Some dep
    /\ ObjectMeta.Name (Deployment.Meta dep)
       = "vl3-slice-router-" +:+ Slice.Name slice
    /\ ObjectMeta.Namespace (Deployment.Meta dep) = Slice.Namespace slice
    /\ forall c',
         Client.Create r (World.cluster w) (ObjDeployment dep) = inr c' ->
         exists w',
           ReconcileSliceRouter r g slice w
           = Some ((Result.mk false 10000000000, None, true), w')
           /\ callsSince w w'
              = [ CallGet KindDeployment (routerDeploymentKey slice);
                  CallList (Slice.Namespace slice) {[ "app" := "nsm-vpp-plane" ]};
                  CallCreate (ObjDeployment dep) ]
           /\ List.filter isCreate (callsSince w w')
              = [CallCreate (ObjDeployment dep)]
           /\ World.cluster w' = c'
           /\ createsOneRouterDeployment r g slice w.
Proof.
  intros Hget Hnf Hcfg Hsub Hdots Hlist.
  destruct (deploymentForSliceRouter_is_Some r g slice cfg
              (strconv.Itoa (SliceConfig.IpamClusterOctet cfg))
              (dataplaneFor items) Hcfg Hdots) as [dep Hdep].
  destruct (deploymentForSliceRouter_meta r g slice _ _ dep Hdep)
    as (Hname & Hns & _).
  exists dep. split_and!; try assumption.
  intros c' Hcreate.
  assert (Hrun :
    ReconcileSliceRouter r g slice w
    = Some ((Result.mk false 10000000000, None, true),
            World.mk c'
              (World.calls w
               ++ [ CallGet KindDeployment (routerDeploymentKey slice);
                    CallList (Slice.Namespace slice)
                             {[ "app" := "nsm-vpp-plane" ]};
                    CallCreate (ObjDeployment dep) ])
              (World.events w))).
  { unfold routerDeploymentKey in *. unfold ReconcileSliceRouter.
    unfold mbind at 1. unfold M_bind at 1.
    unfold Get, sliceRouterDeploymentNamePrefix. rewrite Hget, Hnf, Hcfg.
    apply String.eqb_neq in Hsub. rewrite Hsub.
    unfold mbind, M_bind.
    rewrite (deploySliceRouter_created r g slice _ items cfg dep c');
      try assumption.
    unfold logCall. simpl. rewrite <- app_assoc. reflexivity. }
  eexists. split; [exact Hrun|].
  rewrite callsSince_app. split_and!; try reflexivity.
  exists (World.mk c'
            (World.calls w
             ++ [ CallGet KindDeployment (routerDeploymentKey slice);
                  CallList (Slice.Namespace slice)
                           {[ "app" := "nsm-vpp-plane" ]};
                  CallCreate (ObjDeployment dep) ])
            (World.events w)), dep.
  rewrite callsSince_app. split_and!; try assumption; reflexivity.
Qed.

Lemma ReconcileSliceRouter_creates_router_deployment_witness :
  exists dep c',
    ObjectMeta.Name (Deployment.Meta dep) = "vl3-slice-router-red"
    /\ ObjectMeta.Namespace (Deployment.Meta dep) = "kubeslice-system"
    /\ Client.Create Fake.client Fake.empty (ObjDeployment dep) = inr c'
    /\ createsOneRouterDeployment Fake.client Fake.globals
         (Fake.sliceWith "kubeslice-system" "10.1.0.0/16")
         (World.init Fake.empty).
Proof.
  destruct (ReconcileSliceRouter_creates_router_deployment
              Fake.client Fake.globals
              (Fake.sliceWith "kubeslice-system" "10.1.0.0/16")
              (World.init Fake.empty)
              (Fake.notFound "vl3-slice-router-red")
              (SliceConfig.mk "10.1.0.0/16" 7) [])
    as (dep & Hdep & Hname & Hns & Hcreated).
  - reflexivity.
  - reflexivity.
  - reflexivity.
  - discriminate.
  - simpl. lia.
  - reflexivity.
  - exists dep, (Fake.mkCluster [ObjDeployment dep] [] []).
    assert (Hcreate :
      Client.Create Fake.client Fake.empty (ObjDeployment dep)
      = inr (Fake.mkCluster [ObjDeployment dep] [] [])) by reflexivity.
    destruct (Hcreated _ Hcreate) as (w' & _ & _ & _ & _ & Hone).
    split_and!; assumption.
Defined.

(** ** The outcomes of a reconcile pass *)

Arguments serviceForSliceRouter : simpl never.
Arguments getNsmDataplaneMode : simpl never.

Lemma Pass_world {S} (r : Client.t S) (g : Globals) (slice : Slice.t)
    (w : World.t S) (res : Result.t * option error * bool)
    (w1 w2 : World.t S) :
  Pass r g slice w res w1 -> w1 = w2 -> Pass r g slice w res w2.
Proof. intros Hpass <-. exact Hpass. Qed.

Lemma deploySliceRouterSvc_cases {S} (r : Client.t S) (g : Globals)
    (slice : Slice.t) (w : World.t S) :
  let scr := Client.SetControllerReference r slice
               (Service.Meta (serviceForSliceRouter g slice)) in
  deploySliceRouterSvc r g slice w
  = match scr.2 with
    | Some err => Some (Some err, w)
    | None =>
        let svc := ObjService (ownedService g slice scr.1) in
        match Client.Create r (World.cluster w) svc with
        | inl err =>
            Some (Some err,
                  World.mk (World.cluster w) (World.calls w ++ [CallCreate svc])
                    (World.events w
                     ++ [routerWarning slice
                           "Error creating service for slice router"]))
        | inr c' =>
            Some (None, World.mk c' (World.calls w ++ [CallCreate svc])
                                 (World.events w))
        end
    end.
Proof.
  intros scr. subst scr. unfold deploySliceRouterSvc, ownedService.
  destruct (Client.SetControllerReference r slice _) as [refs [err|]]; simpl.
  - reflexivity.
  - run_monad. unfold logCall. simpl.
    destruct (Client.Create r (World.cluster w) _) as [err|c']; reflexivity.
Qed.

Lemma deploySliceRouter_cases {S} (r : Client.t S) (g : Globals)
    (slice : Slice.t) (w : World.t S) :
  let listPods := CallList (Slice.Namespace slice) {[ "app" := "nsm-vpp-plane" ]} in
  deploySliceRouter r g slice w
  = match podsAnswer r slice w with
    | inl err => Some (Some err, logCall listPods w)
    | inr items =>
        match Slice.StatusSliceConfig slice with
        | None => None
        | Some cfg =>
            match deploymentForSliceRouter r g slice
                    (strconv.Itoa (SliceConfig.IpamClusterOctet cfg))
                    (dataplaneFor items) with
            | None => None
            | Some dep =>
                match Client.Create r (World.cluster w) (ObjDeployment dep) with
                | inl err =>
                    Some (Some err,
                          World.mk (World.cluster w)
                            (World.calls w
                             ++ [listPods; CallCreate (ObjDeployment dep)])
                            (World.events w
                             ++ [routerWarning slice "Error creating slice router"]))
                | inr c' =>
                    Some (None,
                          World.mk c'
                            (World.calls w
                             ++ [listPods; CallCreate (ObjDeployment dep)])
                            (World.events w))
                end
            end
        end
    end.
Proof.
  intros listPods. subst listPods. unfold podsAnswer.
  destruct (Client.List r (World.cluster w) (Slice.Namespace slice) _)
    as [err|items] eqn:Hlist.
  - now apply deploySliceRouter_list_failed.
  - destruct (Slice.StatusSliceConfig slice) as [cfg|] eqn:Hcfg.
    + destruct (deploymentForSliceRouter r g slice _ _) as [dep|] eqn:Hdep.
      * destruct (Client.Create r (World.cluster w) (ObjDeployment dep))
          as [err|c'] eqn:Hcreate.
        -- now apply (deploySliceRouter_create_failed r g slice w items cfg).
        -- now apply (deploySliceRouter_created r g slice w items cfg).
      * unfold deploySliceRouter, mbind, M_bind.
        rewrite (getNsmDataplaneMode_listed r slice w items Hlist).
        rewrite dataplaneFor_valid, Hcfg. unfold orPanic. rewrite Hdep.
        reflexivity.
    + unfold deploySliceRouter, mbind, M_bind.
      rewrite (getNsmDataplaneMode_listed r slice w items Hlist).
      rewrite dataplaneFor_valid, Hcfg. reflexivity.
Qed.

Section PassSound.

Context {S : Type}.
Variable r : Client.t S.
Variable g : Globals.
Variable slice : Slice.t.
Variable w : World.t S.

(** Closes one path: the constructor, its premises, the final world. *)
Local Tactic Notation "path" uconstr(C) :=
  let Hrun := fresh "Hrun" in
  intros Hrun; inversion Hrun; subst;
  eapply Pass_world;
  [ eapply C; first [eassumption | reflexivity | idtac] | world_eq ].

Lemma ReconcileSliceRouter_Pass (res : Result.t * option error * bool)
    (w' : World.t S) :
  ReconcileSliceRouter r g slice w = Some (res, w') ->
  Pass r g slice w res w'.
Proof.
  unfold ReconcileSliceRouter. unfold mbind at 1. unfold M_bind at 1.
  unfold Get at 1.
  destruct (Client.Get r (World.cluster w) KindDeployment _)
    as [err|d] eqn:Hget.
  - destruct (errors.IsNotFound err) eqn:Hnf.
    + destruct (Slice.StatusSliceConfig slice) as [cfg|] eqn:Hcfg.
      * destruct (String.eqb (SliceConfig.SliceSubnet cfg) "") eqn:Hsub.
        -- apply String.eqb_eq in Hsub.
           path PassWaitForSubnet. right. eauto.
        -- apply String.eqb_neq in Hsub.
           unfold mbind, M_bind. rewrite deploySliceRouter_cases.
           unfold podsAnswer. cbn [World.cluster logCall].
           destruct (Client.List r (World.cluster w) _ _)
             as [err'|items] eqn:Hlist.
           ++ path PassListFailed.
           ++ rewrite Hcfg.
              destruct (deploymentForSliceRouter r g slice _ _)
                as [dep|] eqn:Hdep; [|discriminate].
              destruct (Client.Create r (World.cluster w) _)
                as [err'|c'] eqn:Hcreate.
              ** path PassCreateDeploymentFailed.
              ** path PassDeploymentCreated.
      * path PassWaitForSubnet. now left.
    + path PassGetDeploymentFailed.
  - unfold mbind at 1. unfold M_bind at 1. unfold Get at 1.
    cbn [World.cluster logCall].
    destruct (Client.Get r (World.cluster w) KindService _)
      as [err|s] eqn:Hsvc.
    + destruct (errors.IsNotFound err) eqn:Hnf.
      * destruct (Slice.StatusSliceConfig slice) as [cfg|] eqn:Hcfg.
        -- unfold mbind, M_bind. rewrite deploySliceRouterSvc_cases.
           destruct (Client.SetControllerReference r slice _)
             as [refs [err'|]] eqn:Hscr; simpl.
           ++ path PassOwnerReferenceFailed.
           ++ destruct (Client.Create r (World.cluster w) _)
                as [err'|c'] eqn:Hcreate.
              ** path PassCreateServiceFailed.
              ** path PassServiceCreated.
        -- path PassWaitForConfig.
      * path PassGetServiceFailed.
    + path PassNothingToDo.
Qed.

End PassSound.

(** Conversely, every path of [Pass] is a return of the function: the
    relation says no more than [ReconcileSliceRouter] does. *)
Lemma Pass_ReconcileSliceRouter {S} (r : Client.t S) (g : Globals)
    (slice : Slice.t) (w : World.t S)
    (res : Result.t * option error * bool) (w' : World.t S) :
  Pass r g slice w res w' ->
  ReconcileSliceRouter r g slice w = Some (res, w').
Proof.
  intros Hpass.
  destruct Hpass;
    unfold depAnswer, svcAnswer, podsAnswer, routerDeploymentKey,
      routerServiceKey, subnetMissing in *;
    unfold ReconcileSliceRouter, mbind, M_bind, Get,
      sliceRouterDeploymentNamePrefix;
    repeat match goal with
           | H : _ <> "" |- _ => apply String.eqb_neq in H
           | H : _ \/ _ |- _ => destruct H as [H | (? & H & ?)]
           end;
    repeat first
      [ progress cbn [World.cluster logCall fst snd]
      | progress cbv beta
      | rewrite String.eqb_refl
      | rewrite deploySliceRouter_cases
      | rewrite deploySliceRouterSvc_cases
      | progress unfold podsAnswer
      | match goal with
        | H : ?x = _ |- context [?x] => rewrite H
        end ];
    unfold mret, M_ret; f_equal; f_equal; world_eq.
Qed.

Lemma callsSince_after {S} (w : World.t S) (c : S) (calls : list Call)
    (evs : list Event.t) :
  callsSince w (after w c calls evs) = calls.
Proof. unfold after. apply callsSince_app. Qed.

(** ** Client errors *)

(** C6. A client error other than not-found goes to the caller as it is.
    When the pod list fails, [getNsmDataplaneMode] returns that error. In
    any pass of [ReconcileSliceRouter] that issues a call the client answers
    with an error (for a lookup: one that is not not-found), the pass
    returns that same error with the empty result and changed = true; the
    failed call is the last one issued and was issued once (no retry), and
    the cluster is left as it was. *)
Theorem client_errors_are_surfaced
    {S : Type} (r : Client.t S) (g : Globals) (slice : Slice.t) (w : World.t S) :
  (forall err,
      Client.List r (World.cluster w) (Slice.Namespace slice)
                  {[ "app" := "nsm-vpp-plane" ]} = inl err ->
      exists w',
        getNsmDataplaneMode r slice w = Some (("", Some err), w')
        /\ callsSince w w'
           = [CallList (Slice.Namespace slice) {[ "app" := "nsm-vpp-plane" ]}]
        /\ World.cluster w' = World.cluster w)
  /\ (forall res w' (pre : list Call) (call : Call) (post : list Call) err,
        ReconcileSliceRouter r g slice w = Some (res, w') ->
        callsSince w w' = (pre ++ call :: post)%list ->
        hardFailure r (World.cluster w) call = Some err ->
        res = (Result.empty, Some err, true)
        /\ post = []
        /\ ~ In call pre
        /\ World.cluster w' = World.cluster w).
Proof.
  split.
  - intros err Hlist. eexists. split.
    + apply getNsmDataplaneMode_list_failed. exact Hlist.
    + rewrite callsSince_logCall. split; reflexivity.
  - intros res w' pre call post err Hrun Hsplit Hfail.
    apply ReconcileSliceRouter_Pass in Hrun.
    inversion Hrun; subst; rewrite callsSince_after in Hsplit;
      unfold depAnswer, svcAnswer, podsAnswer in *;
      split_trace Hsplit pre; simpl in Hfail;
      repeat match goal with
             | H : ?x = _ |- _ =>
                 lazymatch H with Hfail => fail | _ => idtac end;
                 match type of Hfail with context [x] => rewrite H in Hfail end
             end;
      try discriminate Hfail;
      try (destruct pre; discriminate);
      inversion Hfail; subst;
      (split_and!; [reflexivity | reflexivity | | reflexivity]);
      simpl; intros Hin;
      repeat (destruct Hin as [Hin|Hin]; [discriminate Hin|]); destruct Hin.
Qed.

Lemma client_errors_are_surfaced_witness :
  exists w',
    ReconcileSliceRouter Fake.client Fake.globals
      (Fake.sliceWith "kubeslice-system" "10.1.0.0/16")
      (World.init Fake.createFailing)
    = Some ((Result.empty,
             Some (StatusError StatusReasonForbidden "forbidden"), true), w')
    /\ World.cluster w' = Fake.createFailing.
Proof.
  destruct (client_errors_are_surfaced Fake.client Fake.globals
              (Fake.sliceWith "kubeslice-system" "10.1.0.0/16")
              (World.init Fake.createFailing)) as [_ Hpass].
  eassert (Hrun :
    ReconcileSliceRouter Fake.client Fake.globals
      (Fake.sliceWith "kubeslice-system" "10.1.0.0/16")
      (World.init Fake.createFailing) = Some (_, _))
    by (vm_compute; reflexivity).
  eexists. split; [exact Hrun|].
  refine (proj2 (proj2 (proj2 (Hpass _ _ [_; _] _ _ _ Hrun _ _))));
    reflexivity.
Defined.

(** ** The router Service *)

(** C8. The Service [deploySliceRouterSvc] hands to Create is named
    "vl3-slice-router-" + slice name, as the Deployment is, exposes the one
    port 5000 named "grpc", selects the labels the Deployment selects and
    carries, and holds the owner references [SetControllerReference] set
    for the slice: Create is reached only after that call succeeded, with
    the references it gave, so with the controller reference to the slice
    whenever the call gives it. When the call fails its error is returned
    and nothing is created. *)
Theorem deploySliceRouterSvc_builds_owned_service
    {S : Type} (r : Client.t S) (g : Globals) (slice : Slice.t) (w : World.t S) :
  exists res w',
    deploySliceRouterSvc r g slice w = Some (res, w')
    /\ (forall obj,
          In (CallCreate obj) (callsSince w w') ->
          exists svc refs,
            obj = ObjService svc
            /\ callsSince w w' = [CallCreate obj]
            /\ Client.SetControllerReference r slice
                 (Service.Meta (serviceForSliceRouter g slice)) = (refs, None)
            /\ ObjectMeta.OwnerReferences (Service.Meta svc) = refs
            /\ (In (controllerRefOf slice) refs ->
                In (controllerRefOf slice)
                   (ObjectMeta.OwnerReferences (Service.Meta svc)))
            /\ ObjectMeta.Name (Service.Meta svc)
               = "vl3-slice-router-" +:+ Slice.Name slice
            /\ Service.Ports svc = [ServicePort.mk 5000 "grpc"]
            /\ Service.Selector svc
               = labelsForSliceRouterDeployment (Slice.Name slice)
            /\ (forall ipamOctet dataplane dep,
                  deploymentForSliceRouter r g slice ipamOctet dataplane
                  = Some dep ->
                  ObjectMeta.Name (Deployment.Meta dep)
                  = ObjectMeta.Name (Service.Meta svc)
                  /\ Deployment.MatchLabels dep = Service.Selector svc
                  /\ Deployment.TemplateLabels dep = Service.Selector svc))
    /\ (forall refs,
          Client.SetControllerReference r slice
            (Service.Meta (serviceForSliceRouter g slice)) = (refs, None) ->
          exists svc, callsSince w w' = [CallCreate (ObjService svc)])
    /\ (forall refs err,
          Client.SetControllerReference r slice
            (Service.Meta (serviceForSliceRouter g slice)) = (refs, Some err) ->
          res = Some err /\ callsSince w w' = []).
Proof.
  rewrite deploySliceRouterSvc_cases.
  destruct (Client.SetControllerReference r slice _) as [refs [err|]] eqn:Hscr;
    simpl.
  - exists (Some err), w. unfold callsSince. rewrite drop_all.
    split_and!; try reflexivity.
    + intros obj [].
    + intros refs' Heq. discriminate Heq.
    + intros refs' err' Heq. inversion Heq. split; reflexivity.
  - assert (Hsvc : forall c' evs obj,
      In (CallCreate obj)
         (callsSince w
            (World.mk c'
               (World.calls w
                ++ [CallCreate (ObjService (ownedService g slice refs))]) evs)) ->
      exists svc refs',
        obj = ObjService svc
        /\ callsSince w
             (World.mk c'
                (World.calls w
                 ++ [CallCreate (ObjService (ownedService g slice refs))]) evs)
           = [CallCreate obj]
        /\ (refs, @None error) = (refs', None)
        /\ ObjectMeta.OwnerReferences (Service.Meta svc) = refs'
        /\ (In (controllerRefOf slice) refs' ->
            In (controllerRefOf slice)
               (ObjectMeta.OwnerReferences (Service.Meta svc)))
        /\ ObjectMeta.Name (Service.Meta svc)
           = "vl3-slice-router-" +:+ Slice.Name slice
        /\ Service.Ports svc = [ServicePort.mk 5000 "grpc"]
        /\ Service.Selector svc
           = labelsForSliceRouterDeployment (Slice.Name slice)
        /\ (forall ipamOctet dataplane dep,
              deploymentForSliceRouter r g slice ipamOctet dataplane
              = Some dep ->
              ObjectMeta.Name (Deployment.Meta dep)
              = ObjectMeta.Name (Service.Meta svc)
              /\ Deployment.MatchLabels dep = Service.Selector svc
              /\ Deployment.TemplateLabels dep = Service.Selector svc)).
    { intros c' evs obj. rewrite callsSince_app. intros [Hobj | []].
      inversion Hobj; subst obj.
      exists (ownedService g slice refs), refs.
      split_and!; try reflexivity.
      - intros Hin. exact Hin.
      - intros ipamOctet dataplane dep Hdep.
        destruct (deploymentForSliceRouter_meta r g slice _ _ dep Hdep)
          as (Hname & _ & Hmatch & Htemplate).
        split_and!; assumption. }
    destruct (Client.Create r (World.cluster w) _) as [err|c'];
      (eexists; eexists; split; [reflexivity|]; split_and!;
       [ apply Hsvc
       | intros refs' _; eexists; apply callsSince_app
       | intros refs' err' Heq; discriminate Heq ]).
Qed.

Lemma deploySliceRouterSvc_builds_owned_service_witness :
  exists svc w',
    deploySliceRouterSvc Fake.client Fake.globals
      (Fake.sliceWith "kubeslice-system" "10.1.0.0/16") (World.init Fake.empty)
    = Some (None, w')
    /\ callsSince (World.init Fake.empty) w' = [CallCreate (ObjService svc)]
    /\ ObjectMeta.Name (Service.Meta svc) = "vl3-slice-router-red"
    /\ Service.Ports svc = [ServicePort.mk 5000 "grpc"]
    /\ In (controllerRefOf (Fake.sliceWith "kubeslice-system" "10.1.0.0/16"))
          (ObjectMeta.OwnerReferences (Service.Meta svc)).
Proof.
  destruct (deploySliceRouterSvc_builds_owned_service Fake.client Fake.globals
              (Fake.sliceWith "kubeslice-system" "10.1.0.0/16")
              (World.init Fake.empty))
    as (res & w' & Hrun & Hcreated & Hok & _).
  assert (Hset :
    Client.SetControllerReference Fake.client
      (Fake.sliceWith "kubeslice-system" "10.1.0.0/16")
      (Service.Meta
         (serviceForSliceRouter Fake.globals
            (Fake.sliceWith "kubeslice-system" "10.1.0.0/16")))
    = ([controllerRefOf (Fake.sliceWith "kubeslice-system" "10.1.0.0/16")], None))
    by reflexivity.
  destruct (Hok _ Hset) as [svc Hcalls].
  destruct (Hcreated (ObjService svc)) as
    (svc' & refs & Hobj & _ & Hscr & Hrefs & Hown & Hname & Hports & _).
  { rewrite Hcalls. now left. }
  inversion Hobj; subst svc'. rewrite Hset in Hscr. injection Hscr as Hgiven.
  exists svc, w'. split_and!.
  - eassert (Hnone :
      deploySliceRouterSvc Fake.client Fake.globals
        (Fake.sliceWith "kubeslice-system" "10.1.0.0/16") (World.init Fake.empty)
      = Some (None, _)) by (vm_compute; reflexivity).
    rewrite Hrun in Hnone |- *. injection Hnone as -> _. reflexivity.
  - exact Hcalls.
  - exact Hname.
  - exact Hports.
  - apply Hown. rewrite <- Hgiven. simpl. left. reflexivity.
Defined.

(** ** Names and namespaces *)

(** C10, as stated, fails: for a slice that lives in the control-plane
    namespace the first pass creates the Deployment and the second the
    Service in one and the same namespace. *)
Lemma router_objects_share_control_plane_namespace :
  ~ routerNamespacesDiffer Fake.client Fake.globals
      (Fake.sliceWith "kubeslice-system" "10.1.0.0/16").
Proof.
  intros Hdiffer.
  eassert (Hfirst :
    ReconcileSliceRouter Fake.client Fake.globals
      (Fake.sliceWith "kubeslice-system" "10.1.0.0/16")
      (World.init Fake.empty) = Some (_, _)) by (vm_compute; reflexivity).
  eassert (Hsecond :
    ReconcileSliceRouter Fake.client Fake.globals
      (Fake.sliceWith "kubeslice-system" "10.1.0.0/16")
      (World.init (Fake.reconciled 1
                     (Fake.sliceWith "kubeslice-system" "10.1.0.0/16")
                     Fake.empty)) = Some (_, _)) by (vm_compute; reflexivity).
  refine (Hdiffer _ _ _ _ _ _ _ _ Hfirst _ Hsecond _ _).
  - right. right. left. reflexivity.
  - right. right. left. reflexivity.
  - reflexivity.
Qed.

Lemma cleanupSliceRouter_cases {S} (r : Client.t S) (g : Globals)
    (sliceName : string) (w : World.t S) :
  let key := NamespacedName.mk ("vl3-service-" +:+ sliceName)
                               (ControlPlaneNamespace g) in
  cleanupSliceRouter r g sliceName w
  = match Client.Get r (World.cluster w) KindNetworkService key with
    | inl err =>
        Some (if errors.IsNotFound err then None else Some err,
              after w (World.cluster w) [CallGet KindNetworkService key] [])
    | inr vl3Nse =>
        match Client.Delete r (World.cluster w) vl3Nse with
        | inl err =>
            Some (Some err,
                  after w (World.cluster w)
                        [CallGet KindNetworkService key; CallDelete vl3Nse] [])
        | inr c' =>
            Some (None,
                  after w c'
                        [CallGet KindNetworkService key; CallDelete vl3Nse] [])
        end
    end.
Proof.
  intros key. subst key. unfold cleanupSliceRouter. run_monad.
  destruct (Client.Get r (World.cluster w) KindNetworkService _) as [err|obj].
  - destruct (errors.IsNotFound err); f_equal; f_equal; symmetry; world_eq.
  - cbn [World.cluster logCall].
    destruct (Client.Delete r (World.cluster w) obj) as [err|c'];
      f_equal; f_equal; symmetry; world_eq.
Qed.

(** C10, amended. The router Deployment and the router Service share a
    name, and their namespaces are chosen apart: every pass of
    [ReconcileSliceRouter] reads and creates the Deployment in the slice's
    own namespace and reads and creates the Service in the control-plane
    namespace, and [cleanupSliceRouter] looks its network-service object up
    in the control-plane namespace. The Deployment and the Service created
    for a slice are in one namespace exactly when the slice itself lives in
    the control-plane namespace. *)
Theorem router_objects_namespaces
    {S : Type} (r : Client.t S) (g : Globals) (slice : Slice.t) :
  (forall (w w' : World.t S) res,
      ReconcileSliceRouter r g slice w = Some (res, w') ->
      Forall (routerCall g slice) (callsSince w w'))
  /\ (forall (w : World.t S) sliceName,
        exists res w' rest,
          cleanupSliceRouter r g sliceName w = Some (res, w')
          /\ callsSince w w'
             = CallGet KindNetworkService
                 (NamespacedName.mk ("vl3-service-" +:+ sliceName)
                                    (ControlPlaneNamespace g)) :: rest
          /\ Forall (fun call => isDelete call = true) rest)
  /\ (forall (w1 w2 w1' w2' : World.t S) res1 res2 dep svc,
        ReconcileSliceRouter r g slice w1 = Some (res1, w1') ->
        In (CallCreate (ObjDeployment dep)) (callsSince w1 w1') ->
        ReconcileSliceRouter r g slice w2 = Some (res2, w2') ->
        In (CallCreate (ObjService svc)) (callsSince w2 w2') ->
        ObjectMeta.Name (Deployment.Meta dep) = ObjectMeta.Name (Service.Meta svc)
        /\ (ObjectMeta.Namespace (Deployment.Meta dep)
            = ObjectMeta.Namespace (Service.Meta svc)
            <-> Slice.Namespace slice = ControlPlaneNamespace g)).
Proof.
  assert (Hcalls : forall (w w' : World.t S) res,
             ReconcileSliceRouter r g slice w = Some (res, w') ->
             Forall (routerCall g slice) (callsSince w w')).
  { intros w w' res Hrun. apply ReconcileSliceRouter_Pass in Hrun.
    inversion Hrun; subst; rewrite callsSince_after;
      repeat (apply Forall_cons; split);
      try (apply Forall_nil; exact I);
      try reflexivity; try (split; reflexivity);
      match goal with
      | H : deploymentForSliceRouter _ _ _ _ _ = Some _ |- _ =>
          destruct (deploymentForSliceRouter_meta _ _ _ _ _ _ H)
            as (Hname & Hns & _); split; assumption
      end. }
  split_and!.
  - exact Hcalls.
  - intros w sliceName. rewrite cleanupSliceRouter_cases.
    destruct (Client.Get r (World.cluster w) KindNetworkService _) as [err|obj].
    + eexists _, _, []. split; [reflexivity|]. rewrite callsSince_after.
      split; [reflexivity | constructor].
    + destruct (Client.Delete r (World.cluster w) obj) as [err|c'];
        eexists _, _, [CallDelete obj]; (split; [reflexivity|]);
        rewrite callsSince_after; (split; [reflexivity|]);
        repeat constructor.
  - intros w1 w2 w1' w2' res1 res2 dep svc Hrun1 Hdep Hrun2 Hsvc.
    pose proof (Hcalls _ _ _ Hrun1) as Hall1.
    pose proof (Hcalls _ _ _ Hrun2) as Hall2.
    rewrite Forall_forall in Hall1, Hall2.
    apply list_elem_of_In in Hdep, Hsvc.
    destruct (Hall1 _ Hdep) as [Hdname Hdns].
    destruct (Hall2 _ Hsvc) as [Hsname Hsns].
    split; [congruence|]. rewrite Hdns, Hsns. reflexivity.
Qed.

Lemma router_objects_namespaces_witness :
  Forall (routerCall Fake.globals (Fake.sliceWith "blue" "10.1.0.0/16"))
         [ CallGet KindDeployment
             (NamespacedName.mk "vl3-slice-router-red" "blue");
           CallGet KindService
             (NamespacedName.mk "vl3-slice-router-red" "kubeslice-system") ].
Proof.
  destruct (router_objects_namespaces Fake.client Fake.globals
              (Fake.sliceWith "blue" "10.1.0.0/16")) as [Hcalls _].
  eassert (Hrun :
    ReconcileSliceRouter Fake.client Fake.globals
      (Fake.sliceWith "blue" "10.1.0.0/16")
      (World.init (Fake.reconciled 1 (Fake.sliceWith "blue" "10.1.0.0/16")
                                   Fake.empty)) = Some (_, _))
    by (vm_compute; reflexivity).
  exact (Hcalls _ _ _ Hrun).
Defined.

(** * Further properties of the same code *)

(** ** When a pass panics *)

Lemma deploymentForSliceRouter_None {S} (r : Client.t S) (g : Globals)
    (s : Slice.t) (cfg : SliceConfig.t) (ipamOctet dataplane : string) :
  Slice.StatusSliceConfig s = Some cfg ->
  (deploymentForSliceRouter r g s ipamOctet dataplane = None
   <-> (strings.CountByte (SliceConfig.SliceSubnet cfg) "."%char < 3)%nat).
Proof.
  intros Hcfg. split.
  - intros Hnone.
    destruct (decide (3 <= strings.CountByte (SliceConfig.SliceSubnet cfg)
                                             "."%char)%nat) as [Hdots|]; [|lia].
    destruct (deploymentForSliceRouter_is_Some r g s cfg ipamOctet dataplane
                Hcfg Hdots) as [dep Hdep].
    rewrite Hdep in Hnone. discriminate Hnone.
  - intros Hlt. unfold deploymentForSliceRouter, getContainerSpecForSliceRouter.
    rewrite Hcfg. simpl.
    rewrite getClusterPrefixPool_short; [reflexivity|].
    rewrite Split_length. lia.
Qed.

(** X1. [ReconcileSliceRouter] panics in one situation only: the router
    Deployment is absent, the slice has a non-empty subnet with fewer than
    three dots, and the pod list is answered. The panic comes after the
    lookup and the list, before any Create; a slice without [SliceConfig]
    never panics. *)
Theorem ReconcileSliceRouter_panics_iff
    {S : Type} (r : Client.t S) (g : Globals) (slice : Slice.t) (w : World.t S) :
  ReconcileSliceRouter r g slice w = None
  <-> exists err cfg items,
        Client.Get r (World.cluster w) KindDeployment (routerDeploymentKey slice)
        = inl err
        /\ errors.IsNotFound err = true
        /\ Slice.StatusSliceConfig slice = Some cfg
        /\ SliceConfig.SliceSubnet cfg <> ""
        /\ (strings.CountByte (SliceConfig.SliceSubnet cfg) "."%char < 3)%nat
        /\ Client.List r (World.cluster w) (Slice.Namespace slice)
                       {[ "app" := "nsm-vpp-plane" ]} = inr items.
Proof.
  unfold routerDeploymentKey. split.
  - unfold ReconcileSliceRouter. unfold mbind at 1. unfold M_bind at 1.
    unfold Get at 1. unfold sliceRouterDeploymentNamePrefix.
    destruct (Client.Get r (World.cluster w) KindDeployment _)
      as [err|d] eqn:Hget.
    + destruct (errors.IsNotFound err) eqn:Hnf; [|discriminate].
      destruct (Slice.StatusSliceConfig slice) as [cfg|] eqn:Hcfg;
        [|discriminate].
      destruct (String.eqb (SliceConfig.SliceSubnet cfg) "") eqn:Hsub;
        [discriminate|].
      apply String.eqb_neq in Hsub.
      unfold mbind, M_bind. rewrite deploySliceRouter_cases.
      unfold podsAnswer. cbn [World.cluster logCall].
      destruct (Client.List r (World.cluster w) _ _)
        as [err'|items] eqn:Hlist; [discriminate|].
      rewrite Hcfg.
      destruct (deploymentForSliceRouter r g slice _ _) as [dep|] eqn:Hdep.
      * destruct (Client.Create r (World.cluster w) _); discriminate.
      * intros _. exists err, cfg, items.
        split_and!; try assumption; try reflexivity.
        exact (proj1 (deploymentForSliceRouter_None r g slice cfg _ _ Hcfg) Hdep).
    + unfold mbind at 1. unfold M_bind at 1. unfold Get at 1.
      cbn [World.cluster logCall].
      destruct (Client.Get r (World.cluster w) KindService _) as [err|s];
        [|discriminate].
      destruct (errors.IsNotFound err); [|discriminate].
      destruct (Slice.StatusSliceConfig slice); [|discriminate].
      unfold mbind, M_bind. rewrite deploySliceRouterSvc_cases.
      destruct (Client.SetControllerReference r slice _) as [refs [e|]];
        simpl; [discriminate|].
      destruct (Client.Create r (World.cluster w) _); discriminate.
  - intros (err & cfg & items & Hget & Hnf & Hcfg & Hsub & Hlt & Hlist).
    apply String.eqb_neq in Hsub.
    unfold ReconcileSliceRouter, mbind, M_bind, Get,
      sliceRouterDeploymentNamePrefix.
    rewrite Hget, Hnf, Hcfg, Hsub. rewrite deploySliceRouter_cases.
    unfold podsAnswer. cbn [World.cluster logCall]. rewrite Hlist, Hcfg.
    apply (deploymentForSliceRouter_None r g slice cfg
             (strconv.Itoa (SliceConfig.IpamClusterOctet cfg))
             (dataplaneFor items) Hcfg) in Hlt.
    rewrite Hlt. reflexivity.
Qed.

Lemma ReconcileSliceRouter_panics_iff_witness :
  ReconcileSliceRouter Fake.client Fake.globals
    (Fake.sliceWith "kubeslice-system" "10.1") (World.init Fake.empty) = None.
Proof.
  apply ReconcileSliceRouter_panics_iff.
  exists (Fake.notFound "vl3-slice-router-red"), (SliceConfig.mk "10.1" 7), [].
  split_and!; try reflexivity; [discriminate | simpl; lia].
Defined.

(** ** The Service half of a pass *)

(** X2. When the router Deployment exists, the router Service is absent,
    the slice has a [SliceConfig] (its subnet may be empty) and
    [SetControllerReference] succeeds, [ReconcileSliceRouter] issues the two
    lookups and one Create, of a Service named "vl3-slice-router-" + slice
    name in the control-plane namespace that carries the references set;
    it lists no pods, and once the client accepts the Create it returns a
    requeue after ten seconds with a nil error and changed = true. *)
Theorem ReconcileSliceRouter_creates_router_service
    {S : Type} (r : Client.t S) (g : Globals) (slice : Slice.t)
    (w : World.t S) (d : Object) (err : error) (cfg : SliceConfig.t)
    (refs : list OwnerReference.t) :
  Client.Get r (World.cluster w) KindDeployment (routerDeploymentKey slice)
  = inr d ->
  Client.Get r (World.cluster w) KindService (routerServiceKey g slice)
  = inl err ->
  errors.IsNotFound err = true ->
  Slice.StatusSliceConfig slice = Some cfg ->
  Client.SetControllerReference r slice
    (ObjectMeta.mk ("vl3-slice-router-" +:+ Slice.Name slice)
                   (ControlPlaneNamespace g) ∅ []) = (refs, None) ->
  exists svc,
    Service.Meta svc
    = ObjectMeta.mk ("vl3-slice-router-" +:+ Slice.Name slice)
                    (ControlPlaneNamespace g) ∅ refs
    /\ Service.Ports svc = [ServicePort.mk 5000 "grpc"]
    /\ Service.Selector svc = labelsForSliceRouterDeployment (Slice.Name slice)
    /\ forall c',
         Client.Create r (World.cluster w) (ObjService svc) = inr c' ->
         exists w',
           ReconcileSliceRouter r g slice w
           = Some ((Result.mk false 10000000000, None, true), w')
           /\ callsSince w w'
              = [ CallGet KindDeployment (routerDeploymentKey slice);
                  CallGet KindService (routerServiceKey g slice);
                  CallCreate (ObjService svc) ]
           /\ World.cluster w' = c'
           /\ World.events w' = World.events w.
Proof.
  intros Hdep Hsvc Hnf Hcfg Hscr.
  exists (ownedService g slice refs). split_and!; try reflexivity.
  intros c' Hcreate. eexists. split.
  - apply Pass_ReconcileSliceRouter.
    eapply (PassServiceCreated r g slice w d err cfg refs c'); eassumption.
  - rewrite callsSince_after. split_and!; try reflexivity.
    unfold after. simpl. apply app_nil_r.
Qed.

Lemma ReconcileSliceRouter_creates_router_service_witness :
  exists svc w',
    ReconcileSliceRouter Fake.client Fake.globals
      (Fake.sliceWith "kubeslice-system" "")
      (World.init (Fake.reconciled 1
                     (Fake.sliceWith "kubeslice-system" "10.1.0.0/16")
                     Fake.empty))
    = Some ((Result.mk false 10000000000, None, true), w')
    /\ List.filter isCreate
         (callsSince
            (World.init (Fake.reconciled 1
                           (Fake.sliceWith "kubeslice-system" "10.1.0.0/16")
                           Fake.empty)) w')
       = [CallCreate (ObjService svc)]
    /\ ObjectMeta.Namespace (Service.Meta svc) = "kubeslice-system".
Proof.
  edestruct (ReconcileSliceRouter_creates_router_service
               Fake.client Fake.globals (Fake.sliceWith "kubeslice-system" "")
               (World.init (Fake.reconciled 1
                              (Fake.sliceWith "kubeslice-system" "10.1.0.0/16")
                              Fake.empty)))
    as (svc & Hmeta & _ & _ & Hrun).
  - vm_compute. reflexivity.
  - vm_compute. reflexivity.
  - reflexivity.
  - reflexivity.
  - reflexivity.
  - edestruct (Hrun _ ltac:(vm_compute; reflexivity))
      as (w' & Hpass & Hcalls & _).
    exists svc, w'. split; [exact Hpass|]. rewrite Hcalls, Hmeta.
    split; reflexivity.
Defined.

(** X3. When the router Deployment exists, the router Service is absent
    and the slice has no [SliceConfig], [ReconcileSliceRouter] waits: it
    issues the two lookups and nothing else, leaves the cluster as it was
    and returns a requeue after ten seconds with a nil error and
    changed = true. *)
Theorem ReconcileSliceRouter_service_waits_for_config
    {S : Type} (r : Client.t S) (g : Globals) (slice : Slice.t)
    (w : World.t S) (d : Object) (err : error) :
  Client.Get r (World.cluster w) KindDeployment (routerDeploymentKey slice)
  = inr d ->
  Client.Get r (World.cluster w) KindService (routerServiceKey g slice)
  = inl err ->
  errors.IsNotFound err = true ->
  Slice.StatusSliceConfig slice = None ->
  exists w',
    ReconcileSliceRouter r g slice w
    = Some ((Result.mk false 10000000000, None, true), w')
    /\ callsSince w w'
       = [ CallGet KindDeployment (routerDeploymentKey slice);
           CallGet KindService (routerServiceKey g slice) ]
    /\ World.cluster w' = World.cluster w
    /\ World.events w' = World.events w.
Proof.
  intros Hdep Hsvc Hnf Hcfg. eexists. split.
  - apply Pass_ReconcileSliceRouter.
    eapply (PassWaitForConfig r g slice w d err); eassumption.
  - rewrite callsSince_after. split_and!; try reflexivity.
    unfold after. simpl. apply app_nil_r.
Qed.

Lemma ReconcileSliceRouter_service_waits_for_config_witness :
  exists w',
    ReconcileSliceRouter Fake.client Fake.globals
      (Fake.sliceWithoutConfig "kubeslice-system")
      (World.init (Fake.reconciled 1
                     (Fake.sliceWith "kubeslice-system" "10.1.0.0/16")
                     Fake.empty))
    = Some ((Result.mk false 10000000000, None, true), w')
    /\ World.cluster w'
       = Fake.reconciled 1 (Fake.sliceWith "kubeslice-system" "10.1.0.0/16")
                         Fake.empty.
Proof.
  edestruct (ReconcileSliceRouter_service_waits_for_config
               Fake.client Fake.globals
               (Fake.sliceWithoutConfig "kubeslice-system")
               (World.init (Fake.reconciled 1
                              (Fake.sliceWith "kubeslice-system" "10.1.0.0/16")
                              Fake.empty)))
    as (w' & Hrun & _ & Hcluster & _).
  - vm_compute. reflexivity.
  - vm_compute. reflexivity.
  - reflexivity.
  - reflexivity.
  - exists w'. split; [exact Hrun | exact Hcluster].
Defined.

(** ** What every pass keeps *)

(** X4. A pass of [ReconcileSliceRouter] writes at most once. Whenever it
    returns, it has issued no Delete and at most one Create, the Create is
    its last call, and the cluster it leaves is the one it found unless
    that Create was accepted, in which case it is the cluster the client
    gave for it. *)
Theorem ReconcileSliceRouter_writes_at_most_once
    {S : Type} (r : Client.t S) (g : Globals) (slice : Slice.t)
    (w w' : World.t S) (res : Result.t * option error * bool) :
  ReconcileSliceRouter r g slice w = Some (res, w') ->
  List.filter isDelete (callsSince w w') = []
  /\ (length (List.filter isCreate (callsSince w w')) <= 1)%nat
  /\ (forall (pre post : list Call) obj,
        callsSince w w' = (pre ++ CallCreate obj :: post)%list -> post = [])
  /\ (World.cluster w' = World.cluster w
      \/ exists pre obj,
           callsSince w w' = (pre ++ [CallCreate obj])%list
           /\ Client.Create r (World.cluster w) obj = inr (World.cluster w')).
Proof.
  intros Hrun. apply ReconcileSliceRouter_Pass in Hrun.
  inversion Hrun; subst; rewrite callsSince_after;
    (split_and!;
     [ reflexivity
     | cbn [List.filter isCreate length]; lia
     | intros pre post obj Hsplit; split_trace Hsplit pre;
       try reflexivity; destruct pre; discriminate
     | first [ left; reflexivity
             | right; eexists [_; _], _; split; [reflexivity | eassumption] ] ]).
Qed.

Lemma ReconcileSliceRouter_writes_at_most_once_witness :
  exists w',
    ReconcileSliceRouter Fake.client Fake.globals
      (Fake.sliceWith "kubeslice-system" "10.1.0.0/16")
      (World.init Fake.listFailing)
    = Some ((Result.mk false 0,
             Some (StatusError StatusReasonTimeout "list timed out"), true), w')
    /\ List.filter isDelete (callsSince (World.init Fake.listFailing) w') = []
    /\ World.cluster w' = Fake.listFailing.
Proof.
  eassert (Hrun :
    ReconcileSliceRouter Fake.client Fake.globals
      (Fake.sliceWith "kubeslice-system" "10.1.0.0/16")
      (World.init Fake.listFailing)
    = Some (_, _)) by (vm_compute; reflexivity).
  destruct (ReconcileSliceRouter_writes_at_most_once _ _ _ _ _ _ Hrun)
    as (Hdel & _).
  eexists. split; [exact Hrun|]. split; [exact Hdel | reflexivity].
Defined.

(** X5. A pass of [ReconcileSliceRouter] returns one of three answers:
    the empty result with changed = false, exactly when both lookups found
    their object; a requeue after ten seconds with a nil error and
    changed = true; or an error with the empty result and changed = true.
    The Requeue flag is never set and an error never comes with a delay. *)
Theorem ReconcileSliceRouter_answers
    {S : Type} (r : Client.t S) (g : Globals) (slice : Slice.t)
    (w w' : World.t S) (res : Result.t) (err : option error) (changed : bool) :
  ReconcileSliceRouter r g slice w = Some ((res, err, changed), w') ->
  Result.Requeue res = false
  /\ ((res = Result.mk false 0 /\ err = None /\ changed = false)
      \/ (res = Result.mk false 10000000000 /\ err = None /\ changed = true)
      \/ (res = Result.mk false 0 /\ is_Some err /\ changed = true))
  /\ (changed = false
      <-> exists d s,
            Client.Get r (World.cluster w) KindDeployment
                       (routerDeploymentKey slice) = inr d
            /\ Client.Get r (World.cluster w) KindService
                          (routerServiceKey g slice) = inr s).
Proof.
  intros Hrun. apply ReconcileSliceRouter_Pass in Hrun.
  inversion Hrun; subst; unfold depAnswer, svcAnswer in *;
    (split_and!;
     [ reflexivity
     | first [ left; split_and!; reflexivity
             | right; left; split_and!; reflexivity
             | right; right; split_and!; [reflexivity | eauto | reflexivity] ]
     | split;
       [ first [ discriminate | intros _; eauto ]
       | intros (d' & s' & Hd & Hs); congruence ] ]).
Qed.

Lemma ReconcileSliceRouter_answers_witness :
  exists w',
    ReconcileSliceRouter Fake.client Fake.globals
      (Fake.sliceWith "kubeslice-system" "10.1.0.0/16")
      (World.init Fake.listFailing)
    = Some ((Result.mk false 0,
             Some (StatusError StatusReasonTimeout "list timed out"), true), w').
Proof.
  eassert (Hrun :
    ReconcileSliceRouter Fake.client Fake.globals
      (Fake.sliceWith "kubeslice-system" "10.1.0.0/16")
      (World.init Fake.listFailing)
    = Some ((_, _, _), _)) by (vm_compute; reflexivity).
  pose proof (ReconcileSliceRouter_answers _ _ _ _ _ _ _ _ Hrun) as _.
  eexists. exact Hrun.
Defined.

(** X6. A pass of [ReconcileSliceRouter] records an event in one case
    only: its Create was refused. It then records exactly one Warning with
    reason "Error" for the slice, whose message tells the Deployment from
    the Service, and returns the error of the Create. Every other pass,
    a failed lookup, list or [SetControllerReference] among them, records
    nothing. *)
Theorem ReconcileSliceRouter_events
    {S : Type} (r : Client.t S) (g : Globals) (slice : Slice.t)
    (w w' : World.t S) (res : Result.t * option error * bool) :
  ReconcileSliceRouter r g slice w = Some (res, w') ->
  (World.events w' = World.events w
   /\ ~ exists (pre : list Call) obj err,
          callsSince w w' = (pre ++ [CallCreate obj])%list
          /\ Client.Create r (World.cluster w) obj = inl err)
  \/ exists (pre : list Call) obj err,
       callsSince w w' = (pre ++ [CallCreate obj])%list
       /\ Client.Create r (World.cluster w) obj = inl err
       /\ res = (Result.mk false 0, Some err, true)
       /\ World.events w'
          = (World.events w
             ++ [Event.mk slice EventTypeWarning "Error"
                   match obj with
                   | ObjDeployment _ => "Error creating slice router"
                   | _ => "Error creating service for slice router"
                   end])%list.
Proof.
  intros Hrun. apply ReconcileSliceRouter_Pass in Hrun.
  inversion Hrun; subst; rewrite callsSince_after;
    first
      [ right; eexists [_; _], _, _;
        split_and!; [reflexivity | eassumption | reflexivity | reflexivity]
      | left; split; [unfold after; simpl; apply app_nil_r|];
        intros (pre & obj & e & Hsplit & Hfail);
        split_trace Hsplit pre; try congruence; destruct pre; discriminate ].
Qed.

Lemma ReconcileSliceRouter_events_witness :
  exists w',
    ReconcileSliceRouter Fake.client Fake.globals
      (Fake.sliceWith "kubeslice-system" "10.1.0.0/16")
      (World.init Fake.listFailing)
    = Some ((Result.mk false 0,
             Some (StatusError StatusReasonTimeout "list timed out"), true), w')
    /\ World.events w' = [].
Proof.
  eassert (Hrun :
    ReconcileSliceRouter Fake.client Fake.globals
      (Fake.sliceWith "kubeslice-system" "10.1.0.0/16")
      (World.init Fake.listFailing)
    = Some (_, _)) by (vm_compute; reflexivity).
  pose proof (ReconcileSliceRouter_events _ _ _ _ _ _ Hrun) as _.
  eexists. split; [exact Hrun | reflexivity].
Defined.

(** X7. A pass of [ReconcileSliceRouter] makes no error of its own: the
    error it returns is the one the client answered to its last call (for
    a lookup, one that is not not-found), or the one
    [SetControllerReference] gave for the Service, in which case the pass
    has written nothing. *)
Theorem ReconcileSliceRouter_error_origin
    {S : Type} (r : Client.t S) (g : Globals) (slice : Slice.t)
    (w w' : World.t S) (res : Result.t) (err : error) (changed : bool) :
  ReconcileSliceRouter r g slice w = Some ((res, Some err, changed), w') ->
  (exists (pre : list Call) call,
      callsSince w w' = (pre ++ [call])%list
      /\ hardFailure r (World.cluster w) call = Some err)
  \/ (exists refs,
        Client.SetControllerReference r slice
          (ObjectMeta.mk ("vl3-slice-router-" +:+ Slice.Name slice)
                         (ControlPlaneNamespace g) ∅ []) = (refs, Some err)
        /\ List.filter isWrite (callsSince w w') = []).
Proof.
  intros Hrun. apply ReconcileSliceRouter_Pass in Hrun.
  inversion Hrun; subst; rewrite callsSince_after;
    unfold depAnswer, svcAnswer, podsAnswer in *;
    first
      [ right; eexists; split; [eassumption | reflexivity]
      | left;
        (eexists [], _ + eexists [_], _ + eexists [_; _], _);
        (split; [reflexivity|]); simpl;
        repeat match goal with
               | H : ?x = _ |- context [?x] => rewrite H
               end;
        reflexivity ].
Qed.

Lemma ReconcileSliceRouter_error_origin_witness :
  exists w',
    ReconcileSliceRouter Fake.client Fake.globals
      (Fake.sliceWith "blue" "10.1.0.0/16")
      (World.init (Fake.reconciled 1 (Fake.sliceWith "blue" "10.1.0.0/16")
                                   Fake.empty))
    = Some ((Result.mk false 0,
             Some (Errorf "cross-namespace owner references are disallowed"),
             true), w')
    /\ List.filter isWrite
         (callsSince
            (World.init (Fake.reconciled 1 (Fake.sliceWith "blue" "10.1.0.0/16")
                                         Fake.empty)) w') = [].
Proof.
  eassert (Hrun :
    ReconcileSliceRouter Fake.client Fake.globals
      (Fake.sliceWith "blue" "10.1.0.0/16")
      (World.init (Fake.reconciled 1 (Fake.sliceWith "blue" "10.1.0.0/16")
                                   Fake.empty))
    = Some ((_, Some _, _), _)) by (vm_compute; reflexivity).
  pose proof (ReconcileSliceRouter_error_origin _ _ _ _ _ _ _ _ Hrun) as _.
  eexists. split; [exact Hrun | reflexivity].
Defined.

(** ** Cleanup *)

(** X8. [cleanupSliceRouter] always returns. It looks up
    "vl3-service-" + slice name in the control-plane namespace; it deletes
    only the object that lookup returned and never creates. It returns nil
    exactly when the object was absent or its Delete was accepted, and
    otherwise the error of the lookup or of the Delete; the cluster changes
    only through an accepted Delete. *)
Theorem cleanupSliceRouter_outcomes
    {S : Type} (r : Client.t S) (g : Globals) (sliceName : string)
    (w : World.t S) :
  let found :=
    Client.Get r (World.cluster w) KindNetworkService
               (NamespacedName.mk ("vl3-service-" +:+ sliceName)
                                  (ControlPlaneNamespace g)) in
  exists res w',
    cleanupSliceRouter r g sliceName w = Some (res, w')
    /\ List.filter isCreate (callsSince w w') = []
    /\ (forall obj, In (CallDelete obj) (callsSince w w') -> found = inr obj)
    /\ (res = None
        <-> (exists err, found = inl err /\ errors.IsNotFound err = true)
            \/ (exists obj c', found = inr obj
                               /\ Client.Delete r (World.cluster w) obj = inr c'))
    /\ (forall err,
          res = Some err ->
          (found = inl err /\ errors.IsNotFound err = false)
          \/ (exists obj, found = inr obj
                          /\ Client.Delete r (World.cluster w) obj = inl err))
    /\ (World.cluster w' = World.cluster w
        \/ exists obj, found = inr obj
                       /\ Client.Delete r (World.cluster w) obj
                          = inr (World.cluster w'))
    /\ World.events w' = World.events w.
Proof.
  intros found. subst found. rewrite cleanupSliceRouter_cases.
  destruct (Client.Get r (World.cluster w) KindNetworkService _)
    as [err|obj] eqn:Hget.
  - eexists _, _. split; [reflexivity|]. rewrite callsSince_after.
    split_and!.
    + reflexivity.
    + intros obj [Hin | []]. discriminate Hin.
    + destruct (errors.IsNotFound err) eqn:Hnf; split.
      * intros _. left. eauto.
      * reflexivity.
      * discriminate.
      * intros [(e & He & Hn) | (o & c' & Ho & _)]; [|discriminate].
        inversion He; subst. congruence.
    + intros e. destruct (errors.IsNotFound err) eqn:Hnf; [discriminate|].
      intros He. inversion He; subst. left. split; [reflexivity | exact Hnf].
    + left. reflexivity.
    + unfold after. simpl. apply app_nil_r.
  - destruct (Client.Delete r (World.cluster w) obj) as [err|c'] eqn:Hdel;
      (eexists _, _; split; [reflexivity|]); rewrite callsSince_after;
      split_and!; try reflexivity;
      try (unfold after; simpl; apply app_nil_r).
    + intros o [Hin | [Hin | []]]; [discriminate Hin|].
      inversion Hin. reflexivity.
    + split; [discriminate|].
      intros [(e & He & _) | (o & c' & Ho & Hd)]; [discriminate|].
      inversion Ho; subst. congruence.
    + intros e He. inversion He; subst. right. eauto.
    + left. reflexivity.
    + intros o [Hin | [Hin | []]]; [discriminate Hin|].
      inversion Hin. reflexivity.
    + split; [|reflexivity]. intros _. right. eauto.
    + intros e He. discriminate He.
    + right. eauto.
Qed.

Lemma cleanupSliceRouter_outcomes_witness :
  exists w',
    cleanupSliceRouter Fake.client Fake.globals "red"
      (World.init
         (Fake.mkCluster
            [ObjNetworkService
               (NetworkService.mk
                  (ObjectMeta.mk "vl3-service-red" "kubeslice-system" ∅ []))]
            [] []))
    = Some (None, w')
    /\ World.cluster w' = Fake.empty.
Proof.
  destruct (cleanupSliceRouter_outcomes Fake.client Fake.globals "red"
              (World.init
                 (Fake.mkCluster
                    [ObjNetworkService
                       (NetworkService.mk
                          (ObjectMeta.mk "vl3-service-red" "kubeslice-system"
                                         ∅ []))]
                    [] [])))
    as (res & w' & Hrun & _).
  eassert (Hcomputed :
    cleanupSliceRouter Fake.client Fake.globals "red"
      (World.init
         (Fake.mkCluster
            [ObjNetworkService
               (NetworkService.mk
                  (ObjectMeta.mk "vl3-service-red" "kubeslice-system" ∅ []))]
            [] []))
    = Some (None, _)) by (vm_compute; reflexivity).
  rewrite Hcomputed in Hrun. injection Hrun as _ Hw. subst w'.
  eexists. split; [exact Hcomputed | reflexivity].
Defined.

(** ** The Deployment as an object *)

(** X9. Every Deployment [deploymentForSliceRouter] builds is well formed
    in itself, whatever the dataplane string: it has the two containers
    "vl3-nse" and "avesha-vl3-sidecar", both privileged and both told the
    same DATAPLANE; every volume a container mounts is a volume the pod
    declares; volume names and the environment names of each container are
    free of duplicates; the selector is the pod template's label set and one
    replica is asked for. *)
Theorem deploymentForSliceRouter_well_formed
    {S : Type} (r : Client.t S) (g : Globals) (s : Slice.t)
    (ipamOctet dataplane : string) (dep : Deployment.t) :
  deploymentForSliceRouter r g s ipamOctet dataplane = Some dep ->
  let pod := Deployment.TemplateSpec dep in
  map Container.Name (PodSpec.Containers pod)
  = ["vl3-nse"; "avesha-vl3-sidecar"]
  /\ (forall c m,
        In c (PodSpec.Containers pod) -> In m (Container.VolumeMounts c) ->
        In (VolumeMount.Name m) (map Volume.Name (PodSpec.Volumes pod)))
  /\ List.NoDup (map Volume.Name (PodSpec.Volumes pod))
  /\ (forall c, In c (PodSpec.Containers pod) ->
                In (EnvVar.mk "DATAPLANE" dataplane) (Container.Env c)
                /\ List.NoDup (envNames c)
                /\ exists sc, Container.SecurityContext c = Some sc
                              /\ SecurityContext.Privileged sc = Some true)
  /\ Deployment.MatchLabels dep = Deployment.TemplateLabels dep
  /\ Deployment.Replicas dep = Some 1.
Proof.
  intros Hdep pod. subst pod.
  unfold deploymentForSliceRouter, getContainerSpecForSliceRouter in Hdep.
  destruct (Slice.StatusSliceConfig s) as [cfg|]; [|discriminate].
  simpl in Hdep.
  destruct (getClusterPrefixPool (SliceConfig.SliceSubnet cfg) ipamOctet)
    as [pool|]; [|discriminate].
  simpl in Hdep.
  destruct (Client.SetControllerReference r s _) as [refs e].
  unfold getVolumeSpecForSliceRouter, getContainerSpecForSliceRouterSidecar,
    getSliceRouterSidecarImageAndPullPolicy in Hdep.
  destruct (dataplane_cases dataplane)
    as [(_ & Hk & Hv) | [(_ & Hk & Hv) | (_ & _ & Hk & Hv)]];
    rewrite Hk, Hv in Hdep;
    destruct (negb (String.length (ImagePullSecretName g) =? 0)%nat);
    inversion Hdep; subst dep; clear Hdep; unfold envNames; simpl;
    (split_and!;
     [ reflexivity
     | intros c m [<- | [<- | []]] Hm; simpl in Hm;
       repeat (destruct Hm as [<- | Hm]; [simpl; tauto|]); destruct Hm
     | repeat constructor; simpl; intuition discriminate
     | intros c [<- | [<- | []]]; simpl;
       (split_and!;
        [ tauto
        | repeat constructor; simpl; intuition discriminate
        | eexists; split; reflexivity ])
     | reflexivity
     | reflexivity ]).
Qed.

Lemma deploymentForSliceRouter_well_formed_witness :
  exists dep,
    deploymentForSliceRouter Fake.client Fake.globals
      (Fake.sliceWith "kubeslice-system" "10.1.0.0/16") "7" "vpp" = Some dep
    /\ map Container.Name (PodSpec.Containers (Deployment.TemplateSpec dep))
       = ["vl3-nse"; "avesha-vl3-sidecar"]
    /\ List.NoDup (map Volume.Name (PodSpec.Volumes (Deployment.TemplateSpec dep))).
Proof.
  destruct (deploymentForSliceRouter_is_Some Fake.client Fake.globals
              (Fake.sliceWith "kubeslice-system" "10.1.0.0/16")
              (SliceConfig.mk "10.1.0.0/16" 7) "7" "vpp" eq_refl)
    as [dep Hdep]; [simpl; lia|].
  destruct (deploymentForSliceRouter_well_formed _ _ _ _ _ _ Hdep)
    as (Hnames & _ & Hvolumes & _).
  exists dep. split; [exact Hdep|]. split; [exact Hnames | exact Hvolumes].
Defined.

(** ** Labels and names across slices *)

Lemma labelsForSliceRouterDeployment_slice (name : string) :
  labelsForSliceRouterDeployment name !! "avesha.io/slice" = Some name.
Proof.
  unfold labelsForSliceRouterDeployment.
  repeat (rewrite lookup_insert_ne by discriminate).
  apply lookup_singleton_eq.
Qed.

Lemma append_inj_r (p a b : string) : p +:+ a = p +:+ b -> a = b.
Proof.
  induction p as [|c p IH]; simpl; intros H; [exact H|].
  injection H as H. exact (IH H).
Qed.

(** X10. The label set of a router names its slice: it has the four keys
    of [labelsForSliceRouterDeployment], and the label set of one slice is
    contained in that of another only when the two slices have the same
    name. So the Service built for one slice selects the router pods of a
    Deployment built for another slice only when the names agree. *)
Theorem router_labels_tell_slices_apart
    {S : Type} (r : Client.t S) (g : Globals) :
  (forall name,
      dom (labelsForSliceRouterDeployment name)
      = ({[ "networkservicemesh.io/app"; "networkservicemesh.io/impl";
            "avesha.io/pod-type"; "avesha.io/slice" ]} : gset string))
  /\ (forall name1 name2,
        labelsForSliceRouterDeployment name1
        ⊆ labelsForSliceRouterDeployment name2 -> name1 = name2)
  /\ (forall s1 s2 ipamOctet dataplane dep,
        deploymentForSliceRouter r g s2 ipamOctet dataplane = Some dep ->
        Service.Selector (serviceForSliceRouter g s1)
        ⊆ Deployment.TemplateLabels dep ->
        Slice.Name s1 = Slice.Name s2).
Proof.
  assert (Hsub : forall name1 name2,
             labelsForSliceRouterDeployment name1
             ⊆ labelsForSliceRouterDeployment name2 -> name1 = name2).
  { intros name1 name2 Hsub.
    pose proof (labelsForSliceRouterDeployment_slice name1) as H1.
    eapply lookup_weaken in H1; [|exact Hsub].
    rewrite labelsForSliceRouterDeployment_slice in H1. congruence. }
  split_and!.
  - intros name. unfold labelsForSliceRouterDeployment.
    rewrite !dom_insert_L, dom_singleton_L. set_solver.
  - exact Hsub.
  - intros s1 s2 ipamOctet dataplane dep Hdep Hsel.
    destruct (deploymentForSliceRouter_meta r g s2 _ _ dep Hdep)
      as (_ & _ & _ & Htemplate).
    rewrite Htemplate in Hsel. exact (Hsub _ _ Hsel).
Qed.

Lemma router_labels_tell_slices_apart_witness :
  ~ (labelsForSliceRouterDeployment "red"
     ⊆ labelsForSliceRouterDeployment "blue").
Proof.
  destruct (router_labels_tell_slices_apart Fake.client Fake.globals)
    as (_ & Hsub & _).
  intros H. apply Hsub in H. discriminate H.
Defined.

(** X11. The keys of the derived objects. Two router Deployments have the
    same name and namespace only when their slices have; the router Service
    is keyed by the slice's name alone, so the Services of two slices
    coincide in name and namespace exactly when the slices have the same
    name, whatever their namespaces. *)
Theorem router_object_keys
    {S : Type} (r : Client.t S) (g : Globals) (s1 s2 : Slice.t) :
  (forall o1 d1 o2 d2 dep1 dep2,
      deploymentForSliceRouter r g s1 o1 d1 = Some dep1 ->
      deploymentForSliceRouter r g s2 o2 d2 = Some dep2 ->
      (ObjectMeta.Name (Deployment.Meta dep1)
       = ObjectMeta.Name (Deployment.Meta dep2)
       /\ ObjectMeta.Namespace (Deployment.Meta dep1)
          = ObjectMeta.Namespace (Deployment.Meta dep2))
      <-> (Slice.Name s1 = Slice.Name s2
           /\ Slice.Namespace s1 = Slice.Namespace s2))
  /\ ((ObjectMeta.Name (Service.Meta (serviceForSliceRouter g s1))
       = ObjectMeta.Name (Service.Meta (serviceForSliceRouter g s2))
       /\ ObjectMeta.Namespace (Service.Meta (serviceForSliceRouter g s1))
          = ObjectMeta.Namespace (Service.Meta (serviceForSliceRouter g s2)))
      <-> Slice.Name s1 = Slice.Name s2).
Proof.
  split.
  - intros o1 d1 o2 d2 dep1 dep2 Hdep1 Hdep2.
    destruct (deploymentForSliceRouter_meta r g s1 _ _ dep1 Hdep1)
      as (Hn1 & Hns1 & _).
    destruct (deploymentForSliceRouter_meta r g s2 _ _ dep2 Hdep2)
      as (Hn2 & Hns2 & _).
    rewrite Hn1, Hn2, Hns1, Hns2. split.
    + intros [Hname Hns]. split; [exact (append_inj_r _ _ _ Hname) | exact Hns].
    + intros [-> ->]. split; reflexivity.
  - unfold serviceForSliceRouter, sliceRouterDeploymentNamePrefix. simpl. split.
    + intros [Hname _]. exact (append_inj_r _ _ _ Hname).
    + intros ->. split; reflexivity.
Qed.

Lemma router_object_keys_witness :
  Service.Meta (serviceForSliceRouter Fake.globals (Fake.sliceWith "blue" ""))
  = Service.Meta (serviceForSliceRouter Fake.globals (Fake.sliceWith "green" "")).
Proof.
  destruct (router_object_keys Fake.client Fake.globals
              (Fake.sliceWith "blue" "") (Fake.sliceWith "green" ""))
    as [_ [_ Hsame]].
  destruct (Hsame eq_refl) as [_ _]. reflexivity.
Defined.

(** ** Splitting, joining and the decimal octet *)

Lemma Split_no_sep (s : string) (sep : ascii) :
  strings.CountByte s sep = 0%nat -> strings.Split s sep = [s].
Proof.
  induction s as [|c s IH]; simpl; [reflexivity|].
  destruct (Ascii.eqb c sep); [discriminate|].
  intros H. now rewrite (IH H).
Qed.

Lemma Split_app_sep (a b : string) (sep : ascii) :
  strings.CountByte a sep = 0%nat ->
  strings.Split (a +:+ String sep b) sep = a :: strings.Split b sep.
Proof.
  induction a as [|c a IH]; simpl.
  - intros _. now rewrite Ascii.eqb_refl.
  - destruct (Ascii.eqb c sep); [discriminate|].
    intros H. now rewrite (IH H).
Qed.

Lemma Split_pieces (s : string) (sep : ascii) :
  Forall (fun piece => strings.CountByte piece sep = 0%nat) (strings.Split s sep).
Proof.
  induction s as [|c s IH]; simpl.
  - repeat constructor.
  - destruct (Ascii.eqb c sep) eqn:Hc.
    + constructor; [reflexivity | exact IH].
    + destruct (strings.Split s sep) as [|piece pieces].
      * repeat constructor. simpl. now rewrite Hc.
      * inversion IH; subst. constructor; [|assumption].
        simpl. now rewrite Hc.
Qed.

(** Splitting a join of pieces free of the separator gives the pieces. *)
Lemma Split_Join (l : list string) (sep : ascii) :
  l <> [] ->
  Forall (fun piece => strings.CountByte piece sep = 0%nat) l ->
  strings.Split (strings.Join l (String sep "")) sep = l.
Proof.
  induction l as [|e l IH]; [congruence|]. intros _ Hall.
  inversion Hall as [|? ? He Hl]; subst.
  destruct l as [|e' l].
  - simpl. now apply Split_no_sep.
  - change (strings.Join (e :: e' :: l) (String sep ""))
      with (e +:+ String sep (strings.Join (e' :: l) (String sep ""))).
    rewrite (Split_app_sep _ _ _ He). f_equal. apply IH; [discriminate | exact Hl].
Qed.

Lemma CountByte_Join_length (s : string) (sep : ascii) :
  strings.CountByte s sep = pred (length (strings.Split s sep)).
Proof. rewrite Split_length. reflexivity. Qed.

Lemma string_of_uint_digits (d : Decimal.uint) :
  strings.CountByte (NilEmpty.string_of_uint d) "."%char = 0%nat.
Proof. induction d; simpl; assumption || reflexivity. Qed.

Lemma Itoa_no_dot (i : Z) :
  strings.CountByte (strconv.Itoa i) "."%char = 0%nat.
Proof.
  unfold strconv.Itoa, NilZero.string_of_int, NilZero.string_of_uint.
  destruct (Z.to_int i) as [d|d]; destruct d; simpl;
    reflexivity || apply string_of_uint_digits.
Qed.

Lemma to_int_not_nil (i : Z) :
  Z.to_int i <> Decimal.Pos Decimal.Nil /\ Z.to_int i <> Decimal.Neg Decimal.Nil.
Proof.
  destruct i as [|p|p]; simpl; split; try discriminate;
    intros H; injection H as H; exact (Unsigned.to_uint_nonnil p H).
Qed.

(** The decimal form parses back to the integer, so distinct integers have
    distinct decimal forms. *)
Lemma Itoa_inj (i j : Z) : strconv.Itoa i = strconv.Itoa j -> i = j.
Proof.
  unfold strconv.Itoa. intros H.
  destruct (to_int_not_nil i) as [Hi1 Hi2].
  destruct (to_int_not_nil j) as [Hj1 Hj2].
  pose proof (NilZero.isi _ Hi1 Hi2) as Pi.
  pose proof (NilZero.isi _ Hj1 Hj2) as Pj.
  rewrite H in Pi. rewrite Pi in Pj. injection Pj as Pj.
  exact (DecimalZ.to_int_inj _ _ Pj).
Qed.

(** The pool of a subnet of four components or more splits back into the
    subnet's components with the octet and "0/24" in third and fourth
    place, when the octet has no dot. *)
Lemma getClusterPrefixPool_Split
    (sliceSubnet ipamOctet c0 c1 c2 c3 : string) (rest : list string) :
  strings.Split sliceSubnet "."%char = c0 :: c1 :: c2 :: c3 :: rest ->
  strings.CountByte ipamOctet "."%char = 0%nat ->
  strings.Split
    (strings.Join (c0 :: c1 :: ipamOctet :: "0/24" :: rest) ".") "."%char
  = c0 :: c1 :: ipamOctet :: "0/24" :: rest.
Proof.
  intros Hsplit Hoctet.
  pose proof (Split_pieces sliceSubnet "."%char) as Hpieces.
  rewrite Hsplit in Hpieces.
  inversion Hpieces as [|? ? H0 Hp1]; subst.
  inversion Hp1 as [|? ? H1 Hp2]; subst.
  inversion Hp2 as [|? ? H2 Hp3]; subst.
  inversion Hp3 as [|? ? H3 Hrest]; subst.
  apply (Split_Join _ "."%char); [discriminate|].
  repeat (constructor; [assumption || reflexivity|]). exact Hrest.
Qed.

(** X12. For a subnet of at least four dot-separated components and the
    decimal form of any cluster octet, [getClusterPrefixPool] returns a
    string with the same components as the subnet but for the third, which
    is the octet, and the fourth, which is "0/24". The number of components
    is kept, and applying the function again with the same octet changes
    nothing. *)
Theorem getClusterPrefixPool_components
    (sliceSubnet c0 c1 c2 c3 : string) (rest : list string) (octet : Z) :
  strings.Split sliceSubnet "."%char = c0 :: c1 :: c2 :: c3 :: rest ->
  exists pool,
    getClusterPrefixPool sliceSubnet (strconv.Itoa octet) = Some pool
    /\ strings.Split pool "."%char
       = c0 :: c1 :: strconv.Itoa octet :: "0/24" :: rest
    /\ strings.CountByte pool "."%char = strings.CountByte sliceSubnet "."%char
    /\ getClusterPrefixPool pool (strconv.Itoa octet) = Some pool.
Proof.
  intros Hsplit.
  pose proof (getClusterPrefixPool_Split _ _ _ _ _ _ _ Hsplit
                (Itoa_no_dot octet)) as Hpool.
  eexists. split; [apply (getClusterPrefixPool_long _ _ _ _ _ _ _ Hsplit)|].
  split_and!.
  - exact Hpool.
  - rewrite !CountByte_Join_length, Hpool, Hsplit. reflexivity.
  - apply (getClusterPrefixPool_long _ _ _ _ _ _ _ Hpool).
Qed.

Lemma getClusterPrefixPool_components_witness :
  exists pool,
    getClusterPrefixPool "10.1.0.0/16" (strconv.Itoa 7) = Some pool
    /\ strings.Split pool "."%char = ["10"; "1"; strconv.Itoa 7; "0/24"]
    /\ getClusterPrefixPool pool (strconv.Itoa 7) = Some pool.
Proof.
  destruct (getClusterPrefixPool_components "10.1.0.0/16" "10" "1" "0" "0/16"
              [] 7 eq_refl) as (pool & Hpool & Hsplit & _ & Hagain).
  exists pool. split_and!; assumption.
Defined.

(** X13. For one subnet, distinct cluster octets give distinct prefix
    pools: two octets whose pools are equal are the same integer. *)
Theorem getClusterPrefixPool_octet_inj
    (sliceSubnet pool : string) (octet1 octet2 : Z) :
  getClusterPrefixPool sliceSubnet (strconv.Itoa octet1) = Some pool ->
  getClusterPrefixPool sliceSubnet (strconv.Itoa octet2) = Some pool ->
  octet1 = octet2.
Proof.
  intros H1 H2.
  assert (Hsome : is_Some (getClusterPrefixPool sliceSubnet (strconv.Itoa octet1)))
    by eauto.
  apply getClusterPrefixPool_is_Some in Hsome.
  destruct (Split_four _ Hsome) as (c0 & c1 & c2 & c3 & rest & Hsplit).
  pose proof (getClusterPrefixPool_Split _ _ _ _ _ _ _ Hsplit
                (Itoa_no_dot octet1)) as Hs1.
  pose proof (getClusterPrefixPool_Split _ _ _ _ _ _ _ Hsplit
                (Itoa_no_dot octet2)) as Hs2.
  rewrite (getClusterPrefixPool_long _ _ _ _ _ _ _ Hsplit) in H1.
  rewrite (getClusterPrefixPool_long _ _ _ _ _ _ _ Hsplit) in H2.
  assert (E1 : strings.Join (c0 :: c1 :: strconv.Itoa octet1 :: "0/24" :: rest)
                            "." = pool) by congruence.
  assert (E2 : strings.Join (c0 :: c1 :: strconv.Itoa octet2 :: "0/24" :: rest)
                            "." = pool) by congruence.
  rewrite E1 in Hs1. rewrite E2 in Hs2. rewrite Hs1 in Hs2.
  injection Hs2 as Heq. exact (Itoa_inj _ _ Heq).
Qed.

Lemma getClusterPrefixPool_octet_inj_witness :
  getClusterPrefixPool "10.1.0.0/16" (strconv.Itoa 7) = Some "10.1.7.0/24"
  /\ 7 = 7.
Proof.
  split; [reflexivity|].
  exact (getClusterPrefixPool_octet_inj "10.1.0.0/16" "10.1.7.0/24" 7 7
           eq_refl eq_refl).
Defined.

(** ** Passes in sequence *)

(** X14. Three passes provision a slice. On a cluster where the router
    Deployment is absent, with the subnet set, the pod list answered and
    every Create accepted, and where the client finds afterwards what it
    was given (the Deployment after the first pass, the Service after the
    second), the first pass creates the Deployment and asks for a requeue,
    the second creates the Service and asks for a requeue, and the third
    changes nothing and reports changed = false. The two Creates are the
    only writes of the three passes. *)
Theorem ReconcileSliceRouter_provisions_in_three_passes
    {S : Type} (r : Client.t S) (g : Globals) (slice : Slice.t)
    (c0 c1 c2 : S) (cfg : SliceConfig.t) (items : list Pod.t)
    (dep : Deployment.t) (refs : list OwnerReference.t)
    (nf1 nf2 : error) (d1 d2 s2 : Object) :
  Slice.StatusSliceConfig slice = Some cfg ->
  SliceConfig.SliceSubnet cfg <> "" ->
  Client.Get r c0 KindDeployment (routerDeploymentKey slice) = inl nf1 ->
  errors.IsNotFound nf1 = true ->
  Client.List r c0 (Slice.Namespace slice) {[ "app" := "nsm-vpp-plane" ]}
  = inr items ->
  deploymentForSliceRouter r g slice
    (strconv.Itoa (SliceConfig.IpamClusterOctet cfg)) (dataplaneFor items)
  = Some dep ->
  Client.Create r c0 (ObjDeployment dep) = inr c1 ->
  Client.Get r c1 KindDeployment (routerDeploymentKey slice) = inr d1 ->
  Client.Get r c1 KindService (routerServiceKey g slice) = inl nf2 ->
  errors.IsNotFound nf2 = true ->
  Client.SetControllerReference r slice
    (Service.Meta (serviceForSliceRouter g slice)) = (refs, None) ->
  Client.Create r c1 (ObjService (ownedService g slice refs)) = inr c2 ->
  Client.Get r c2 KindDeployment (routerDeploymentKey slice) = inr d2 ->
  Client.Get r c2 KindService (routerServiceKey g slice) = inr s2 ->
  exists w1 w2 w3,
    ReconcileSliceRouter r g slice (World.init c0)
    = Some ((Result.mk false 10000000000, None, true), w1)
    /\ ReconcileSliceRouter r g slice w1
       = Some ((Result.mk false 10000000000, None, true), w2)
    /\ ReconcileSliceRouter r g slice w2
       = Some ((Result.mk false 0, None, false), w3)
    /\ World.cluster w1 = c1
    /\ World.cluster w2 = c2
    /\ World.cluster w3 = c2
    /\ List.filter isWrite (World.calls w3)
       = [ CallCreate (ObjDeployment dep);
           CallCreate (ObjService (ownedService g slice refs)) ]
    /\ World.events w3 = [].
Proof.
  intros Hcfg Hsub Hget0 Hnf1 Hlist Hdep Hcreate0 Hget1 Hsvc1 Hnf2 Hscr
    Hcreate1 Hget2 Hsvc2.
  eexists _, _, _. split_and!.
  - apply Pass_ReconcileSliceRouter.
    eapply (PassDeploymentCreated r g slice (World.init c0)); eassumption.
  - apply Pass_ReconcileSliceRouter.
    eapply (PassServiceCreated r g slice); eassumption.
  - apply Pass_ReconcileSliceRouter.
    eapply (PassNothingToDo r g slice); eassumption.
  - reflexivity.
  - reflexivity.
  - reflexivity.
  - reflexivity.
  - reflexivity.
Qed.

Lemma ReconcileSliceRouter_provisions_in_three_passes_witness :
  exists w1 w2 w3,
    ReconcileSliceRouter Fake.client Fake.globals
      (Fake.sliceWith "kubeslice-system" "10.1.0.0/16") (World.init Fake.empty)
    = Some ((Result.mk false 10000000000, None, true), w1)
    /\ ReconcileSliceRouter Fake.client Fake.globals
         (Fake.sliceWith "kubeslice-system" "10.1.0.0/16") w1
       = Some ((Result.mk false 10000000000, None, true), w2)
    /\ ReconcileSliceRouter Fake.client Fake.globals
         (Fake.sliceWith "kubeslice-system" "10.1.0.0/16") w2
       = Some ((Result.mk false 0, None, false), w3)
    /\ length (List.filter isWrite (World.calls w3)) = 2%nat.
Proof.
  destruct (deploymentForSliceRouter_is_Some Fake.client Fake.globals
              (Fake.sliceWith "kubeslice-system" "10.1.0.0/16")
              (SliceConfig.mk "10.1.0.0/16" 7) (strconv.Itoa 7)
              (dataplaneFor []) eq_refl)
    as [dep Hdep]; [simpl; lia|].
  destruct (deploymentForSliceRouter_meta _ _ _ _ _ _ Hdep)
    as (Hname & Hns & _).
  assert (Hfound : forall rest,
    Client.Get Fake.client (Fake.mkCluster (ObjDeployment dep :: rest) [] [])
      KindDeployment
      (routerDeploymentKey (Fake.sliceWith "kubeslice-system" "10.1.0.0/16"))
    = inr (ObjDeployment dep)).
  { intros rest. unfold Fake.client, Fake.get, Fake.hasKey. simpl.
    rewrite Hname, Hns. reflexivity. }
  destruct (ReconcileSliceRouter_provisions_in_three_passes
              Fake.client Fake.globals
              (Fake.sliceWith "kubeslice-system" "10.1.0.0/16")
              Fake.empty
              (Fake.mkCluster [ObjDeployment dep] [] [])
              (Fake.mkCluster
                 [ObjDeployment dep;
                  ObjService
                    (ownedService Fake.globals
                       (Fake.sliceWith "kubeslice-system" "10.1.0.0/16")
                       [controllerRefOf
                          (Fake.sliceWith "kubeslice-system" "10.1.0.0/16")])]
                 [] [])
              (SliceConfig.mk "10.1.0.0/16" 7) [] dep
              [controllerRefOf (Fake.sliceWith "kubeslice-system" "10.1.0.0/16")]
              (Fake.notFound "vl3-slice-router-red")
              (Fake.notFound "vl3-slice-router-red")
              (ObjDeployment dep) (ObjDeployment dep)
              (ObjService
                 (ownedService Fake.globals
                    (Fake.sliceWith "kubeslice-system" "10.1.0.0/16")
                    [controllerRefOf
                       (Fake.sliceWith "kubeslice-system" "10.1.0.0/16")])))
    as (w1 & w2 & w3 & H1 & H2 & H3 & _ & _ & _ & Hwrites & _).
  - reflexivity.
  - discriminate.
  - reflexivity.
  - reflexivity.
  - reflexivity.
  - exact Hdep.
  - reflexivity.
  - apply Hfound.
  - reflexivity.
  - reflexivity.
  - reflexivity.
  - reflexivity.
  - apply Hfound.
  - reflexivity.
  - exists w1, w2, w3. split_and!; try assumption.
    rewrite Hwrites. reflexivity.
Defined.

(** ** The caller's guard *)

(** X15. [deploySliceRouter] reads the slice's [SliceConfig] without a
    test of its own. For a slice without [SliceConfig] it returns the error
    of the pod list when the list fails, and panics once the list is
    answered; it never reaches a Create. [ReconcileSliceRouter] does not
    call it for such a slice. *)
Theorem deploySliceRouter_needs_config
    {S : Type} (r : Client.t S) (g : Globals) (slice : Slice.t) (w : World.t S) :
  Slice.StatusSliceConfig slice = None ->
  (forall items,
      Client.List r (World.cluster w) (Slice.Namespace slice)
                  {[ "app" := "nsm-vpp-plane" ]} = inr items ->
      deploySliceRouter r g slice w = None)
  /\ (forall err,
        Client.List r (World.cluster w) (Slice.Namespace slice)
                    {[ "app" := "nsm-vpp-plane" ]} = inl err ->
        deploySliceRouter r g slice w
        = Some (Some err,
                logCall (CallList (Slice.Namespace slice)
                                  {[ "app" := "nsm-vpp-plane" ]}) w))
  /\ (forall res w',
        deploySliceRouter r g slice w = Some (res, w') ->
        List.filter isCreate (callsSince w w') = [])
  /\ (forall res w',
        ReconcileSliceRouter r g slice w = Some (res, w') ->
        ~ In (CallList (Slice.Namespace slice) {[ "app" := "nsm-vpp-plane" ]})
             (callsSince w w')).
Proof.
  intros Hcfg. split_and!.
  - intros items Hlist. rewrite deploySliceRouter_cases. unfold podsAnswer.
    rewrite Hlist, Hcfg. reflexivity.
  - intros err Hlist. rewrite deploySliceRouter_cases. unfold podsAnswer.
    rewrite Hlist. reflexivity.
  - intros res w'. rewrite deploySliceRouter_cases. unfold podsAnswer.
    destruct (Client.List r (World.cluster w) _ _) as [err|items].
    + intros Hrun. inversion Hrun; subst. rewrite callsSince_logCall.
      reflexivity.
    + rewrite Hcfg. discriminate.
  - intros res w' Hrun. apply ReconcileSliceRouter_Pass in Hrun.
    inversion Hrun; subst; rewrite callsSince_after; try congruence;
      simpl; intros Hin;
      repeat (destruct Hin as [Hin|Hin]; [discriminate Hin|]); destruct Hin.
Qed.

Lemma deploySliceRouter_needs_config_witness :
  deploySliceRouter Fake.client Fake.globals
    (Fake.sliceWithoutConfig "kubeslice-system") (World.init Fake.empty) = None.
Proof.
  destruct (deploySliceRouter_needs_config Fake.client Fake.globals
              (Fake.sliceWithoutConfig "kubeslice-system")
              (World.init Fake.empty) eq_refl) as [Hpanic _].
  exact (Hpanic [] eq_refl).
Defined.

(** ** Images, pull policies and pull secrets *)

Lemma or_default (s d : string) :
  (if negb (String.length s =? 0)%nat then s else d)
  = (if decide (s = "") then d else s).
Proof. destruct s; reflexivity. Qed.

Lemma or_default_lt (s d : string) :
  (if (0 <? String.length s)%nat then s else d)
  = (if decide (s = "") then d else s).
Proof. destruct s; reflexivity. Qed.

(** X16. The configuration read at start-up reaches the Deployment with
    these defaults. The router container takes its image and pull policy
    from the environment and falls back to the fixed image and to Always,
    so neither is ever empty; the sidecar's pull policy falls back to
    Always too, but its image is the environment's value as it is, empty
    when unset. The pod references the image pull secret exactly when its
    name is not empty. *)
Theorem deploymentForSliceRouter_configuration
    {S : Type} (r : Client.t S) (g : Globals) (s : Slice.t)
    (ipamOctet dataplane : string) (dep : Deployment.t) :
  deploymentForSliceRouter r g s ipamOctet dataplane = Some dep ->
  exists router sidecar,
    PodSpec.Containers (Deployment.TemplateSpec dep) = [router; sidecar]
    /\ Container.Image router
       = (if decide (vl3RouterImage g = "")
          then "nexus.dev.aveshalabs.io/avesha/vl3_ucnf-nse:1.0.0"
          else vl3RouterImage g)
    /\ Container.ImagePullPolicy router
       = (if decide (vl3RouterPullPolicy g = "") then "Always"
          else vl3RouterPullPolicy g)
    /\ Container.Image sidecar = sliceRouterSidecarImage g
    /\ Container.ImagePullPolicy sidecar
       = (if decide (sliceRouterSidecarImagePullPolicy g = "") then "Always"
          else sliceRouterSidecarImagePullPolicy g)
    /\ Container.Image router <> ""
    /\ Container.ImagePullPolicy router <> ""
    /\ Container.ImagePullPolicy sidecar <> ""
    /\ PodSpec.ImagePullSecrets (Deployment.TemplateSpec dep)
       = (if decide (ImagePullSecretName g = "") then []
          else [ImagePullSecretName g]).
Proof.
  intros Hdep.
  unfold deploymentForSliceRouter, getContainerSpecForSliceRouter in Hdep.
  destruct (Slice.StatusSliceConfig s) as [cfg|]; [|discriminate].
  simpl in Hdep.
  destruct (getClusterPrefixPool (SliceConfig.SliceSubnet cfg) ipamOctet)
    as [pool|]; [|discriminate].
  simpl in Hdep.
  destruct (Client.SetControllerReference r s _) as [refs e].
  unfold getContainerSpecForSliceRouterSidecar,
    getSliceRouterSidecarImageAndPullPolicy, PullAlways in Hdep.
  rewrite !or_default, or_default_lt in Hdep.
  destruct (ImagePullSecretName g) as [|n1 sec] eqn:Hsec; simpl in Hdep;
    destruct (String.eqb dataplane nsmDataplaneKernel);
    destruct (String.eqb dataplane nsmDataplaneVpp);
    inversion Hdep; subst dep; clear Hdep;
    (eexists _, _; split; [reflexivity|]; split_and!; simpl;
     try reflexivity; case_decide; discriminate || assumption).
Qed.

Lemma deploymentForSliceRouter_configuration_witness :
  exists dep router sidecar,
    deploymentForSliceRouter Fake.client Fake.globals
      (Fake.sliceWith "kubeslice-system" "10.1.0.0/16") "7" "kernel" = Some dep
    /\ PodSpec.Containers (Deployment.TemplateSpec dep) = [router; sidecar]
    /\ Container.ImagePullPolicy router = "Always"
    /\ Container.Image sidecar = "".
Proof.
  destruct (deploymentForSliceRouter_is_Some Fake.client Fake.globals
              (Fake.sliceWith "kubeslice-system" "10.1.0.0/16")
              (SliceConfig.mk "10.1.0.0/16" 7) "7" "kernel" eq_refl)
    as [dep Hdep]; [simpl; lia|].
  destruct (deploymentForSliceRouter_configuration _ _ _ _ _ _ Hdep)
    as (router & sidecar & Hcs & _ & Hpol & Himg & _).
  exists dep, router, sidecar. split_and!; assumption.
Defined.

(** ** One name for the network service *)

Lemma labelsForSliceRouterDeployment_impl (name : string) :
  labelsForSliceRouterDeployment name !! "networkservicemesh.io/impl"
  = Some ("vl3-service-" +:+ name).
Proof.
  unfold labelsForSliceRouterDeployment.
  rewrite lookup_insert_ne by discriminate. apply lookup_insert_eq.
Qed.

Lemma labelsForSliceRouterDeployment_app (name : string) :
  labelsForSliceRouterDeployment name !! "networkservicemesh.io/app"
  = Some ("vl3-nse-" +:+ name).
Proof. unfold labelsForSliceRouterDeployment. apply lookup_insert_eq. Qed.

(** X17. The functions agree on the name of the slice's network service.
    The name the router container announces in ENDPOINT_NETWORK_SERVICE is
    "vl3-service-" + slice name; it is the value of the router's
    "networkservicemesh.io/impl" label, the name [cleanupSliceRouter] looks
    up for that slice, and, prefixed by "ucnf-", the ConfigMap of the VPP
    volume. The endpoint label the container announces is the router's
    "networkservicemesh.io/app" label. *)
Theorem router_network_service_name
    (g : Globals) (s : Slice.t) (ipamOctet dataplane : string) (c : Container.t) :
  getContainerSpecForSliceRouter g s ipamOctet dataplane = Some c ->
  In (EnvVar.mk "ENDPOINT_NETWORK_SERVICE" ("vl3-service-" +:+ Slice.Name s))
     (Container.Env c)
  /\ labelsForSliceRouterDeployment (Slice.Name s)
     !! "networkservicemesh.io/impl" = Some ("vl3-service-" +:+ Slice.Name s)
  /\ (forall app,
        labelsForSliceRouterDeployment (Slice.Name s)
        !! "networkservicemesh.io/app" = Some app ->
        In (EnvVar.mk "ENDPOINT_LABELS" ("app=" +:+ app)) (Container.Env c))
  /\ (forall S (r : Client.t S) (w w' : World.t S) res,
        cleanupSliceRouter r g (Slice.Name s) w = Some (res, w') ->
        exists rest,
          callsSince w w'
          = CallGet KindNetworkService
              (NamespacedName.mk ("vl3-service-" +:+ Slice.Name s)
                                 (ControlPlaneNamespace g)) :: rest)
  /\ (forall v name,
        In v (getVolumeSpecForSliceRouter s dataplane) ->
        Volume.Source v = ConfigMap name ->
        name = "ucnf-" +:+ "vl3-service-" +:+ Slice.Name s).
Proof.
  intros Hc. split_and!.
  - unfold getContainerSpecForSliceRouter in Hc.
    destruct (Slice.StatusSliceConfig s) as [cfg|]; [|discriminate].
    simpl in Hc.
    destruct (getClusterPrefixPool _ _) as [pool|]; [|discriminate].
    simpl in Hc.
    destruct (String.eqb dataplane nsmDataplaneKernel);
      destruct (String.eqb dataplane nsmDataplaneVpp);
      inversion Hc; subst c; simpl; tauto.
  - apply labelsForSliceRouterDeployment_impl.
  - intros app Happ. rewrite labelsForSliceRouterDeployment_app in Happ.
    injection Happ as <-.
    unfold getContainerSpecForSliceRouter in Hc.
    destruct (Slice.StatusSliceConfig s) as [cfg|]; [|discriminate].
    simpl in Hc.
    destruct (getClusterPrefixPool _ _) as [pool|]; [|discriminate].
    simpl in Hc.
    destruct (String.eqb dataplane nsmDataplaneKernel);
      destruct (String.eqb dataplane nsmDataplaneVpp);
      inversion Hc; subst c; simpl; tauto.
  - intros S r w w' res. rewrite cleanupSliceRouter_cases.
    destruct (Client.Get r (World.cluster w) KindNetworkService _)
      as [err|obj].
    + intros Hrun. inversion Hrun; subst. rewrite callsSince_after. eauto.
    + destruct (Client.Delete r (World.cluster w) obj);
        intros Hrun; inversion Hrun; subst; rewrite callsSince_after; eauto.
  - intros v name. unfold getVolumeSpecForSliceRouter.
    destruct (String.eqb dataplane nsmDataplaneVpp); simpl;
      intros Hin Hsrc;
      repeat (destruct Hin as [<- | Hin];
              [simpl in Hsrc; first [discriminate Hsrc
                                    | injection Hsrc as <-; reflexivity]|]);
      destruct Hin.
Qed.

Lemma router_network_service_name_witness :
  exists c,
    getContainerSpecForSliceRouter Fake.globals
      (Fake.sliceWith "kubeslice-system" "10.1.0.0/16") "7" "kernel" = Some c
    /\ In (EnvVar.mk "ENDPOINT_NETWORK_SERVICE" "vl3-service-red")
          (Container.Env c).
Proof.
  destruct (getContainerSpecForSliceRouter_is_Some Fake.globals
              (Fake.sliceWith "kubeslice-system" "10.1.0.0/16")
              (SliceConfig.mk "10.1.0.0/16" 7) "7" "kernel" eq_refl)
    as [c Hc]; [simpl; lia|].
  destruct (router_network_service_name _ _ _ _ _ Hc) as (Hin & _).
  exists c. split; [exact Hc | exact Hin].
Defined.

(** ** Detection decides construction *)

(** X18. The Deployment a pass asks the client to create follows the
    dataplane detected in that pass and the octet of the slice. With an
    empty pod list both containers are told "kernel" and the router gets
    IP_ADDRESS, the prefix pool of the subnet and the decimal octet, and
    DST_ROUTES, the subnet; with a pod in the list both are told "vpp" and
    the router gets NSE_IPAM_UNIQUE_OCTET, the decimal octet. The pod has
    the universal-cnf config volume exactly in the second case. *)
Theorem created_deployment_follows_detection
    {S : Type} (r : Client.t S) (g : Globals) (slice : Slice.t)
    (w w' : World.t S) (res : Result.t * option error * bool)
    (dep : Deployment.t) :
  ReconcileSliceRouter r g slice w = Some (res, w') ->
  In (CallCreate (ObjDeployment dep)) (callsSince w w') ->
  exists cfg items router sidecar,
    Slice.StatusSliceConfig slice = Some cfg
    /\ Client.List r (World.cluster w) (Slice.Namespace slice)
                   {[ "app" := "nsm-vpp-plane" ]} = inr items
    /\ PodSpec.Containers (Deployment.TemplateSpec dep) = [router; sidecar]
    /\ (items = [] ->
        In (EnvVar.mk "DATAPLANE" "kernel") (Container.Env router)
        /\ In (EnvVar.mk "DATAPLANE" "kernel") (Container.Env sidecar)
        /\ (exists pool,
              getClusterPrefixPool (SliceConfig.SliceSubnet cfg)
                (strconv.Itoa (SliceConfig.IpamClusterOctet cfg)) = Some pool
              /\ In (EnvVar.mk "IP_ADDRESS" pool) (Container.Env router))
        /\ In (EnvVar.mk "DST_ROUTES" (SliceConfig.SliceSubnet cfg))
              (Container.Env router)
        /\ map Volume.Name (PodSpec.Volumes (Deployment.TemplateSpec dep))
           = ["shared-volume"])
    /\ (items <> [] ->
        In (EnvVar.mk "DATAPLANE" "vpp") (Container.Env router)
        /\ In (EnvVar.mk "DATAPLANE" "vpp") (Container.Env sidecar)
        /\ In (EnvVar.mk "NSE_IPAM_UNIQUE_OCTET"
                 (strconv.Itoa (SliceConfig.IpamClusterOctet cfg)))
              (Container.Env router)
        /\ map Volume.Name (PodSpec.Volumes (Deployment.TemplateSpec dep))
           = ["shared-volume"; "universal-cnf-config-volume"]).
Proof.
  intros Hrun Hin. apply ReconcileSliceRouter_Pass in Hrun.
  assert (Hbuilt : exists cfg items,
    Slice.StatusSliceConfig slice = Some cfg
    /\ podsAnswer r slice w = inr items
    /\ deploymentForSliceRouter r g slice
         (strconv.Itoa (SliceConfig.IpamClusterOctet cfg)) (dataplaneFor items)
       = Some dep).
  { inversion Hrun; subst; rewrite callsSince_after in Hin; simpl in Hin;
      repeat (destruct Hin as [Hin|Hin]; [try discriminate Hin|]);
      try contradiction;
      injection Hin as <-; eauto. }
  clear Hrun Hin. destruct Hbuilt as (cfg & items & Hcfg & Hlist & Hdep).
  unfold podsAnswer in Hlist.
  unfold deploymentForSliceRouter, getContainerSpecForSliceRouter in Hdep.
  rewrite Hcfg in Hdep. simpl in Hdep.
  destruct (getClusterPrefixPool _ _) as [pool|] eqn:Hpool; [|discriminate].
  simpl in Hdep.
  destruct (Client.SetControllerReference r slice _) as [refs e].
  destruct items as [|p items]; simpl in Hdep;
    destruct (negb (String.length (ImagePullSecretName g) =? 0)%nat);
    inversion Hdep; subst dep; clear Hdep;
    (exists cfg; eexists _, _, _;
     split; [exact Hcfg|]; split; [exact Hlist|]; split; [reflexivity|];
     split; intros Hitems; try congruence; simpl;
     split_and!; try tauto; try reflexivity;
     try (exists pool; split; [exact Hpool | simpl; tauto])).
Qed.

Lemma created_deployment_follows_detection_witness :
  exists dep router sidecar,
    deploymentForSliceRouter Fake.client Fake.globals
      (Fake.sliceWith "kubeslice-system" "10.1.0.0/16") (strconv.Itoa 7)
      "kernel" = Some dep
    /\ PodSpec.Containers (Deployment.TemplateSpec dep) = [router; sidecar]
    /\ In (EnvVar.mk "DATAPLANE" "kernel") (Container.Env router)
    /\ In (EnvVar.mk "DST_ROUTES" "10.1.0.0/16") (Container.Env router).
Proof.
  destruct (deploymentForSliceRouter_is_Some Fake.client Fake.globals
              (Fake.sliceWith "kubeslice-system" "10.1.0.0/16")
              (SliceConfig.mk "10.1.0.0/16" 7) (strconv.Itoa 7)
              (dataplaneFor []) eq_refl)
    as [dep Hdep]; [simpl; lia|].
  assert (Hrun :
    ReconcileSliceRouter Fake.client Fake.globals
      (Fake.sliceWith "kubeslice-system" "10.1.0.0/16") (World.init Fake.empty)
    = Some ((requeueAfter10s, None, true),
            after (World.init Fake.empty)
              (Fake.mkCluster [ObjDeployment dep] [] [])
              [ CallGet KindDeployment
                  (routerDeploymentKey
                     (Fake.sliceWith "kubeslice-system" "10.1.0.0/16"));
                CallList "kubeslice-system" {[ "app" := "nsm-vpp-plane" ]};
                CallCreate (ObjDeployment dep) ] [])).
  { apply Pass_ReconcileSliceRouter.
    apply (PassDeploymentCreated Fake.client Fake.globals
             (Fake.sliceWith "kubeslice-system" "10.1.0.0/16")
             (World.init Fake.empty)
             (Fake.notFound "vl3-slice-router-red")
             (SliceConfig.mk "10.1.0.0/16" 7) [] dep
             (Fake.mkCluster [ObjDeployment dep] [] []));
      try reflexivity; [discriminate | exact Hdep]. }
  assert (Hin :
    In (CallCreate (ObjDeployment dep))
       (callsSince (World.init Fake.empty)
          (after (World.init Fake.empty)
             (Fake.mkCluster [ObjDeployment dep] [] [])
             [ CallGet KindDeployment
                 (routerDeploymentKey
                    (Fake.sliceWith "kubeslice-system" "10.1.0.0/16"));
               CallList "kubeslice-system" {[ "app" := "nsm-vpp-plane" ]};
               CallCreate (ObjDeployment dep) ] []))).
  { rewrite callsSince_after. simpl. tauto. }
  destruct (created_deployment_follows_detection _ _ _ _ _ _ _ Hrun Hin)
    as (cfg & items & router & sidecar & Hcfg & Hlist & Hcs & Hkernel & _).
  injection Hcfg as <-. injection Hlist as <-.
  destruct (Hkernel eq_refl) as (Hd & _ & _ & Hroutes & _).
  exists dep, router, sidecar. split_and!; assumption.
Defined.
